(** * ToolEVO platform: tool registry and tool gateway

  A shallow embedding of the two services that make up the tool
  resolution and invocation core:

  - [services/tool-registry/app/{models,schemas,main}.py]: the tables
    [tools] and [tool_versions] and the request handlers over them;
  - [services/tool-gateway/app/main.py]: the [call_tool] handler that
    resolves a slug through the registry and dispatches an HTTP call.

  Handlers are functions in a state-and-exception monad.  For the registry
  the state is the content of the two tables; for the gateway it is the
  outside network together with the log of the requests sent so far. *)

From Stdlib Require Import ZArith Ascii String List Sorted Permutation Lia.
From Stdlib Require Import PrimFloat.
From stdpp Require Import base decidable option list sorting strings.

Set Warnings "-register-all".
Local Open Scope Z_scope.

(* ===================================================================== *)
(** * Python values                                                       *)
(* ===================================================================== *)

Module py.

(** What [json.loads] produces, and what the handlers pass around as
    [Dict[str, Any]].  A [dict] keeps its insertion order, so it is an
    association list; [dict.get] finds the binding of a key. *)
Inductive JSON : Type :=
| JNull
| JBool (b : bool)
| JInt (n : Z)
| JFloat (f : float)
| JStr (s : string)
| JList (items : list JSON)
| JDict (fields : list (string * JSON)).

Definition empty_dict : JSON := JDict [].

(** [bool(v)]: [None], [False], zero, and the empty string, list and dict
    are false; everything else is true. *)
Definition truthy (v : JSON) : bool :=
  match v with
  | JNull => false
  | JBool b => b
  | JInt n => negb (n =? 0)
  | JFloat f => negb (PrimFloat.eqb f PrimFloat.zero)
  | JStr s => negb (String.eqb s "")
  | JList items => match items with [] => false | _ => true end
  | JDict fields => match fields with [] => false | _ => true end
  end.

(** [a or b] *)
Definition py_or (a b : JSON) : JSON := if truthy a then a else b.

Fixpoint assoc (key : string) (fields : list (string * JSON)) : option JSON :=
  match fields with
  | [] => None
  | (k, v) :: rest => if String.eqb k key then Some v else assoc key rest
  end.

(** Strings are byte strings (UTF-8).  On a string of ASCII characters only,
    [str.upper()] upper-cases the letters [a] to [z] and keeps every other
    character: that is [ascii_upper].  On any other string [str.upper()]
    follows the Unicode case mapping, which is taken from the environment
    (see [httpx.upper]). *)
Definition upper_ascii (c : ascii) : ascii :=
  let n := N_of_ascii c in
  if ((97 <=? n) && (n <=? 122))%N then ascii_of_N (n - 32) else c.

Fixpoint ascii_upper (s : string) : string :=
  match s with
  | EmptyString => EmptyString
  | String c rest => String (upper_ascii c) (ascii_upper rest)
  end.

Fixpoint is_ascii (s : string) : bool :=
  match s with
  | EmptyString => true
  | String c rest => (N_of_ascii c <? 128)%N && is_ascii rest
  end.

(** [s.startswith(p)] *)
Fixpoint startswith (s p : string) : bool :=
  match p with
  | EmptyString => true
  | String c p' =>
      match s with
      | EmptyString => false
      | String d s' => Ascii.eqb c d && startswith s' p'
      end
  end.

(** The exceptions the two services can raise.  [HTTPException] is the one
    FastAPI turns into a response with that status code; any other
    exception leaves the handler unhandled (a 500 from the server). *)
Inductive Exception : Type :=
| HTTPException (status_code : Z) (detail : string)
| MultipleResultsFound            (* sqlalchemy: [one_or_none] on several rows *)
| IntegrityError                  (* sqlalchemy: primary key or UNIQUE violated *)
| RequestError (cause : string)   (* httpx: transport-level failure *)
| ClientError (cause : string)    (* httpx: any exception outside RequestError *)
| JSONDecodeError                 (* a ValueError *)
| RecursionError                  (* the decoder on a body nested too deep *)
| AttributeError.

Inductive Outcome (A : Type) : Type :=
| Return (a : A)
| Raise (e : Exception).
Arguments Return {A} a.
Arguments Raise {A} e.

(** Handlers thread a state [S] and may raise. *)
Definition M (S A : Type) : Type := S -> Outcome A * S.

Definition ret {S A} (a : A) : M S A := fun s => (Return a, s).
Definition raise {S A} (e : Exception) : M S A := fun s => (Raise e, s).
Definition bind {S A B} (m : M S A) (k : A -> M S B) : M S B :=
  fun s => match m s with
           | (Return a, s') => k a s'
           | (Raise e, s') => (Raise e, s')
           end.

(** [try: body except <caught> as e: handler(e)]; exceptions for which
    [handler] gives [None] are not caught. *)
Definition try_except {S A} (body : M S A) (handler : Exception -> option (M S A))
  : M S A :=
  fun s => match body s with
           | (Return a, s') => (Return a, s')
           | (Raise e, s') =>
               match handler e with
               | Some h => h s'
               | None => (Raise e, s')
               end
           end.

(** [v.get(key, dflt)]; [v.get(key)] is [v.get(key, None)].  Only a dict
    has [get]: on any other value the attribute lookup fails. *)
Definition dict_get {S} (v : JSON) (key : string) (dflt : JSON) : M S JSON :=
  match v with
  | JDict fields =>
      match assoc key fields with
      | Some x => ret x
      | None => ret dflt
      end
  | _ => raise AttributeError
  end.

Declare Scope py_scope.
Delimit Scope py_scope with py.
Notation "x <- m ;; k" := (bind m (fun x => k))
  (at level 100, m at next level, right associativity) : py_scope.
Notation "m ;;; k" := (bind m (fun _ => k))
  (at level 100, right associativity) : py_scope.

End py.

(* ===================================================================== *)
(** * tool-registry/app/models.py                                         *)
(* ===================================================================== *)

Module models.

(** A [DateTime] column: microseconds since the epoch. *)
Definition datetime : Type := Z.

Inductive ToolStatus : Type := draft | active | deprecated | retired.

#[global] Instance ToolStatus_eq_dec : EqDecision ToolStatus.
Proof. solve_decision. Defined.

(** A row of [tools]. *)
Module Tool.
Record t : Type := mk {
  id : string;                       (* primary key, default uuid4 *)
  slug : string;                     (* unique, not null *)
  display_name : string;
  description : option string;
  created_at : datetime;
  updated_at : datetime
}.
End Tool.

(** A row of [tool_versions]. *)
Module ToolVersion.
Record t : Type := mk {
  id : string;                       (* primary key, default uuid4 *)
  tool_id : string;                  (* foreign key to tools.id *)
  version : string;
  status : ToolStatus;
  input_schema : list (string * py.JSON);
  output_schema : list (string * py.JSON);
  endpoint_protocol : string;
  endpoint_method : option string;
  endpoint_url : option string;
  auth_type : string;
  auth_key_name : option string;
  auth_key_location : option string;
  cost_per_call_usd : option string;
  valid_from : option datetime;
  valid_to : option datetime;
  created_at : datetime;
  updated_at : datetime
}.

(** [version.status = s; version.updated_at = now] *)
Definition set_status (v : t) (s : ToolStatus) (now : datetime) : t :=
  mk (id v) (tool_id v) (version v) s (input_schema v) (output_schema v)
     (endpoint_protocol v) (endpoint_method v) (endpoint_url v)
     (auth_type v) (auth_key_name v) (auth_key_location v)
     (cost_per_call_usd v) (valid_from v) (valid_to v) (created_at v) now.
End ToolVersion.

End models.

(* ===================================================================== *)
(** * tool-registry/app/schemas.py                                        *)
(* ===================================================================== *)

Module schemas.
Import models.

Module ToolCreate.
Record t : Type := mk {
  slug : string;
  display_name : string;
  description : option string
}.
End ToolCreate.

(** [ToolRead] and [ToolVersionRead] (orm_mode) carry exactly the columns of
    the row they are read from. *)
Definition ToolRead : Type := Tool.t.
Definition ToolVersionRead : Type := ToolVersion.t.

(** The body of a create-version request as the client sent it: the two
    fields that have a default in [ToolVersionBase] may be left out. *)
Module ToolVersionBody.
Record t : Type := mk {
  version : string;
  status : option ToolStatus;
  input_schema : list (string * py.JSON);
  output_schema : list (string * py.JSON);
  endpoint_protocol : string;
  endpoint_method : option string;
  endpoint_url : option string;
  auth_type : option string;
  auth_key_name : option string;
  auth_key_location : option string;
  cost_per_call_usd : option string;
  valid_from : option datetime;
  valid_to : option datetime
}.
End ToolVersionBody.

(** [ToolVersionCreate(ToolVersionBase)]: the validated payload. *)
Module ToolVersionCreate.
Record t : Type := mk {
  version : string;
  status : ToolStatus;               (* = ToolStatus.draft *)
  input_schema : list (string * py.JSON);
  output_schema : list (string * py.JSON);
  endpoint_protocol : string;
  endpoint_method : option string;   (* = None *)
  endpoint_url : option string;      (* = None *)
  auth_type : string;                (* = "none" *)
  auth_key_name : option string;
  auth_key_location : option string;
  cost_per_call_usd : option string;
  valid_from : option datetime;
  valid_to : option datetime
}.

(** Pydantic fills in the class defaults for the fields the body omits. *)
Definition validate (b : ToolVersionBody.t) : t :=
  mk (ToolVersionBody.version b)
     (default draft (ToolVersionBody.status b))
     (ToolVersionBody.input_schema b) (ToolVersionBody.output_schema b)
     (ToolVersionBody.endpoint_protocol b)
     (ToolVersionBody.endpoint_method b) (ToolVersionBody.endpoint_url b)
     (default "none" (ToolVersionBody.auth_type b))
     (ToolVersionBody.auth_key_name b) (ToolVersionBody.auth_key_location b)
     (ToolVersionBody.cost_per_call_usd b)
     (ToolVersionBody.valid_from b) (ToolVersionBody.valid_to b).
End ToolVersionCreate.

(** [ToolWithVersions(ToolRead)]: the tool with the rows of its [versions]
    relationship. *)
Module ToolWithVersions.
Record t : Type := mk { tool : ToolRead; versions : list ToolVersionRead }.
End ToolWithVersions.

Module StatusUpdate.
Record t : Type := mk { status : ToolStatus }.
End StatusUpdate.

Module Resolved.
Record t : Type := mk { tool : ToolRead; version : ToolVersionRead }.
End Resolved.

End schemas.

(* ===================================================================== *)
(** * The database session                                                *)
(* ===================================================================== *)

Module db.
Import py models.

(** Modelled from the spec: [app/db.py], which sets up the engine and the
    session ([Base], [engine], [get_db]), is not among the sources.  The
    session is the "durable relational store" of the specification: the
    content of the two tables declared in [models.py], rows in insertion
    order, written by INSERT and UPDATE under the declared constraints. *)
Record Database : Type := mkDatabase {
  tools : list Tool.t;
  tool_versions : list ToolVersion.t
}.

Definition empty : Database := mkDatabase [] [].

(** What the SQL engine guarantees for [ORDER BY key DESC]: the rows it is
    given come back rearranged with keys descending.  The order among rows
    of equal key is the engine's own business. *)
Class QueryEngine : Type := {
  order_by_desc : forall {A : Type}, (A -> Z) -> list A -> list A;
  order_by_desc_perm :
    forall (A : Type) (key : A -> Z) (rows : list A),
      order_by_desc key rows ≡ₚ rows;
  order_by_desc_sorted :
    forall (A : Type) (key : A -> Z) (rows : list A),
      Sorted (fun a b => key b <= key a) (order_by_desc key rows)
}.

(** What the engine guarantees for a SELECT without ORDER BY, such as the
    load of the [versions] relationship of a tool: the rows come back in an
    order of the engine's choosing. *)
Class RelationshipLoader : Type := {
  load : forall {A : Type}, list A -> list A;
  load_perm : forall (A : Type) (rows : list A), load rows ≡ₚ rows
}.

(** Values the environment supplies for the column defaults of an INSERT. *)
Record Generated : Type := mkGenerated {
  uuid4 : string;
  utcnow_created_at : datetime;
  utcnow_updated_at : datetime
}.

Definition Query (A : Type) : Type := M Database A.

Definition query_Tool : Query (list Tool.t) :=
  fun d => (Return (tools d), d).

Definition query_ToolVersion : Query (list ToolVersion.t) :=
  fun d => (Return (tool_versions d), d).

(** [.one_or_none()] *)
Definition one_or_none {A : Type} (rows : list A) : Query (option A) :=
  match rows with
  | [] => ret None
  | [row] => ret (Some row)
  | _ :: _ :: _ => raise MultipleResultsFound
  end.

(** [.first()] *)
Definition first {A : Type} (rows : list A) : option A := head rows.

(** [db.add(tool); db.commit()]: the INSERT is refused when the primary key
    or the UNIQUE slug is already taken. *)
Definition add_Tool (row : Tool.t) : Query unit :=
  fun d =>
    if bool_decide (Tool.id row ∈ Tool.id <$> tools d) ||
       bool_decide (Tool.slug row ∈ Tool.slug <$> tools d)
    then (Raise IntegrityError, d)
    else (Return tt, mkDatabase (tools d ++ [row]) (tool_versions d)).

(** [db.add(version); db.commit()] *)
Definition add_ToolVersion (row : ToolVersion.t) : Query unit :=
  fun d =>
    if bool_decide (ToolVersion.id row ∈ ToolVersion.id <$> tool_versions d)
    then (Raise IntegrityError, d)
    else (Return tt, mkDatabase (tools d) (tool_versions d ++ [row])).

(** [db.commit()] after the attributes of a loaded row were assigned: the
    UPDATE rewrites the row with that primary key, every other row stays. *)
Definition replace_row (row r : ToolVersion.t) : ToolVersion.t :=
  if decide (ToolVersion.id r = ToolVersion.id row) then row else r.

Definition update_ToolVersion (row : ToolVersion.t) : Query unit :=
  fun d =>
    (Return tt, mkDatabase (tools d) (replace_row row <$> tool_versions d)).

End db.

(* ===================================================================== *)
(** * tool-registry/app/main.py                                           *)
(* ===================================================================== *)

Module registry.
Import py models schemas db.
Local Open Scope py_scope.

Section Handlers.
Context {engine : QueryEngine} {loader : RelationshipLoader}.

Definition create_tool (tool : ToolCreate.t) (gen : Generated) : Query ToolRead :=
  rows <- query_Tool ;;
  existing <- one_or_none
                (filter (fun r => Tool.slug r = ToolCreate.slug tool) rows) ;;
  match existing with
  | Some _ => raise (HTTPException 400 "Tool with this slug already exists")
  | None =>
      let db_tool :=
        Tool.mk (uuid4 gen) (ToolCreate.slug tool)
          (ToolCreate.display_name tool) (ToolCreate.description tool)
          (utcnow_created_at gen) (utcnow_updated_at gen) in
      add_Tool db_tool ;;;
      ret db_tool
  end.

Definition get_tool (tool_id : string) : Query ToolWithVersions.t :=
  rows <- query_Tool ;;
  tool <- one_or_none (filter (fun r => Tool.id r = tool_id) rows) ;;
  match tool with
  | None => raise (HTTPException 404 "Tool not found")
  | Some tool =>
      versions <- query_ToolVersion ;;
      ret (ToolWithVersions.mk tool
             (load (filter (fun v => ToolVersion.tool_id v = Tool.id tool) versions)))
  end.

Definition create_tool_version (tool_id : string)
    (payload : ToolVersionCreate.t) (gen : Generated) : Query ToolVersionRead :=
  rows <- query_Tool ;;
  tool <- one_or_none (filter (fun r => Tool.id r = tool_id) rows) ;;
  match tool with
  | None => raise (HTTPException 404 "Tool not found")
  | Some tool =>
      let db_version :=
        ToolVersion.mk (uuid4 gen) (Tool.id tool)
          (ToolVersionCreate.version payload)
          (ToolVersionCreate.status payload)
          (ToolVersionCreate.input_schema payload)
          (ToolVersionCreate.output_schema payload)
          (ToolVersionCreate.endpoint_protocol payload)
          (ToolVersionCreate.endpoint_method payload)
          (ToolVersionCreate.endpoint_url payload)
          (ToolVersionCreate.auth_type payload)
          (ToolVersionCreate.auth_key_name payload)
          (ToolVersionCreate.auth_key_location payload)
          (ToolVersionCreate.cost_per_call_usd payload)
          (ToolVersionCreate.valid_from payload)
          (ToolVersionCreate.valid_to payload)
          (utcnow_created_at gen) (utcnow_updated_at gen) in
      add_ToolVersion db_version ;;;
      ret db_version
  end.

Definition list_tool_versions (tool_id : string) (status : option ToolStatus)
  : Query (list ToolVersionRead) :=
  rows <- query_ToolVersion ;;
  let q := filter (fun v => ToolVersion.tool_id v = tool_id) rows in
  let q := match status with
           | Some s => filter (fun v => ToolVersion.status v = s) q
           | None => q
           end in
  ret (order_by_desc ToolVersion.created_at q).

Definition get_tool_version (tool_id version_id : string) : Query ToolVersionRead :=
  rows <- query_ToolVersion ;;
  version <- one_or_none
               (filter (fun v => ToolVersion.tool_id v = tool_id /\
                                 ToolVersion.id v = version_id) rows) ;;
  match version with
  | None => raise (HTTPException 404 "Tool version not found")
  | Some version => ret version
  end.

(** [now] is what [datetime.utcnow()] returns in the handler. *)
Definition update_tool_version_status (tool_id version_id : string)
    (status_update : StatusUpdate.t) (now : datetime) : Query ToolVersionRead :=
  rows <- query_ToolVersion ;;
  version <- one_or_none
               (filter (fun v => ToolVersion.tool_id v = tool_id /\
                                 ToolVersion.id v = version_id) rows) ;;
  match version with
  | None => raise (HTTPException 404 "Tool version not found")
  | Some version =>
      let version :=
        ToolVersion.set_status version (StatusUpdate.status status_update) now in
      update_ToolVersion version ;;;
      ret version
  end.

Definition resolve_tool (slug : string) : Query Resolved.t :=
  rows <- query_Tool ;;
  tool <- one_or_none (filter (fun r => Tool.slug r = slug) rows) ;;
  match tool with
  | None => raise (HTTPException 404 "Tool not found")
  | Some tool =>
      versions <- query_ToolVersion ;;
      let version :=
        first (order_by_desc ToolVersion.created_at
                 (filter (fun v => ToolVersion.tool_id v = Tool.id tool /\
                                   ToolVersion.status v = active) versions)) in
      match version with
      | None => raise (HTTPException 404 "No active version for this tool")
      | Some version => ret (Resolved.mk tool version)
      end
  end.

End Handlers.
End registry.

(* ===================================================================== *)
(** * The HTTP client                                                     *)
(* ===================================================================== *)

Module httpx.
Import py.

(** An outbound request: [client.get(url, params=...)] or
    [client.post(url, json=...)]. *)
Record Request : Type := mkRequest {
  method : string;
  url : string;
  params : option (list (string * JSON));
  json : option (list (string * JSON))
}.

Record Response : Type := mkResponse {
  status_code : Z;
  text : string
}.

(** How an exchange ends: a response of whatever status came back, or the
    client raised.  [httpx.RequestError] covers the transport failures
    (connection refused, timeout, name resolution); [OtherFailure] is any
    exception outside that class. *)
Inductive Answer : Type :=
| Responded (r : Response)
| TransportFailure (cause : string)
| OtherFailure (cause : string).

(** How the JSON decoder ends on a body: with the decoded value, with a
    [ValueError] (the body is not JSON), or with the [RecursionError] it
    raises on a body nested deeper than the interpreter's limit, which is
    not a [ValueError]. *)
Inductive Decoding : Type :=
| Decoded (v : JSON)
| NotJSON
| TooDeep.

(** Everything the gateway takes from outside: the network, the JSON
    decoder, [str.upper()] on a string that is not ASCII, [str()] on a value
    that is not a string, and the environment variable. *)
Class Environment : Type := {
  Net : Type;
  exchange : Request -> Net -> Answer * Net;
  json_loads : string -> Decoding;
  unicode_upper : string -> string;
  py_repr : JSON -> string;
  REGISTRY_BASE_URL : string
}.

Section Client.
Context {env : Environment}.

(** The state of a gateway run: the network and the log of the exchanges
    made so far, oldest first. *)
Record World : Type := mkWorld {
  net : Net;
  sent : list (Request * Answer)
}.

Definition send (q : Request) : M World Response :=
  fun w =>
    let '(a, n) := exchange q (net w) in
    let w' := mkWorld n (sent w ++ [(q, a)]) in
    match a with
    | Responded r => (Return r, w')
    | TransportFailure cause => (Raise (RequestError cause), w')
    | OtherFailure cause => (Raise (ClientError cause), w')
    end.

Definition get (url : string) (params : list (string * JSON)) : M World Response :=
  send (mkRequest "GET" url (Some params) None).

Definition post (url : string) (json : list (string * JSON)) : M World Response :=
  send (mkRequest "POST" url None (Some json)).

(** [response.json()] *)
Definition Response_json {S : Type} (r : Response) : M S JSON :=
  match json_loads (text r) with
  | Decoded v => ret v
  | NotJSON => raise JSONDecodeError
  | TooDeep => raise RecursionError
  end.

(** [s.upper()] *)
Definition upper (s : string) : string :=
  if is_ascii s then ascii_upper s else unicode_upper s.

(** [f"{v}"] *)
Definition format (v : JSON) : string :=
  match v with
  | JStr s => s
  | _ => py_repr v
  end.

End Client.
End httpx.

(* ===================================================================== *)
(** * tool-gateway/app/main.py                                            *)
(* ===================================================================== *)

Module gateway.
Import py httpx.
Local Open Scope py_scope.

Record ToolCallRequest : Type := mkToolCallRequest {
  slug : string;
  input : list (string * JSON)
}.

Section Handlers.
Context {env : Environment}.

(** [x.upper()]: only a string has [upper]. *)
Definition str_upper (v : JSON) : M World string :=
  match v with
  | JStr s => ret (upper s)
  | _ => raise AttributeError
  end.

(** [if not endpoint_url.startswith("http"):
       endpoint_url = f"{protocol}://{endpoint_url}"] *)
Definition target_url (endpoint_url protocol : JSON) : M World string :=
  match endpoint_url with
  | JStr u =>
      if negb (startswith u "http")
      then ret (format protocol +:+ "://" +:+ u)
      else ret u
  | _ => raise AttributeError
  end.

Definition resolve_request (req : ToolCallRequest) : Request :=
  mkRequest "GET" (REGISTRY_BASE_URL +:+ "/resolve")
            (Some [("slug", JStr (slug req))]) None.

Definition call_tool (req : ToolCallRequest) : M World JSON :=
  (* 1. Resolve tool + version *)
  r <- get (REGISTRY_BASE_URL +:+ "/resolve") [("slug", JStr (slug req))] ;;
  (if negb (status_code r =? 200)
   then raise (HTTPException (status_code r)
                 ("Failed to resolve tool: " +:+ text r))
   else ret tt) ;;;
  resolved <- Response_json r ;;
  version <- dict_get resolved "version" JNull ;;
  let version := py_or version empty_dict in
  endpoint_url <- dict_get version "endpoint_url" JNull ;;
  endpoint_method <- dict_get version "endpoint_method" JNull ;;
  endpoint_method <- str_upper (py_or endpoint_method (JStr "POST")) ;;
  protocol <- dict_get version "endpoint_protocol" (JStr "http") ;;
  (if negb (truthy endpoint_url)
   then raise (HTTPException 500 "Tool endpoint_url is not set")
   else ret tt) ;;;
  endpoint_url <- target_url endpoint_url protocol ;;
  (* 2. Call the underlying endpoint *)
  tool_resp <-
    try_except
      (if String.eqb endpoint_method "GET" then get endpoint_url (input req)
       else if String.eqb endpoint_method "POST" then post endpoint_url (input req)
       else raise (HTTPException 500
                     ("Unsupported endpoint_method: " +:+ endpoint_method)))
      (fun e =>
         match e with
         | RequestError cause =>
             Some (raise (HTTPException 502
                            ("Error calling tool endpoint: " +:+ cause)))
         | _ => None
         end) ;;
  (* Attempt to parse JSON; if it fails, return text *)
  tool_data <-
    try_except (Response_json tool_resp)
      (fun e =>
         match e with
         | JSONDecodeError => Some (ret (JDict [("raw", JStr (text tool_resp))]))
         | _ => None
         end) ;;
  tool <- dict_get resolved "tool" JNull ;;
  ret (JDict [("tool", tool);
              ("version", version);
              ("tool_status_code", JInt (status_code tool_resp));
              ("result", tool_data)]).

End Handlers.
End gateway.

(* ===================================================================== *)
(** * Vocabulary of the specification                                     *)
(* ===================================================================== *)

Module spec.
Import py models db.

(** The error classes of the specification and the HTTP failures that
    carry them. *)
Definition NotFound (detail : string) : Exception := HTTPException 404 detail.
Definition Conflict (detail : string) : Exception := HTTPException 400 detail.
Definition BadConfig (detail : string) : Exception := HTTPException 500 detail.
Definition BadGateway (detail : string) : Exception := HTTPException 502 detail.

(** The integrity constraints declared in [models.py] (primary keys, the
    UNIQUE slug, the foreign key of a version). *)
Record db_ok (d : Database) : Prop := mk_db_ok {
  tools_pk : NoDup (Tool.id <$> tools d);
  tools_slug_unique : NoDup (Tool.slug <$> tools d);
  tool_versions_pk : NoDup (ToolVersion.id <$> tool_versions d);
  tool_versions_fk :
    forall v, v ∈ tool_versions d ->
              ToolVersion.tool_id v ∈ Tool.id <$> tools d
}.

(** A tool of the store named by its slug, and the versions that
    [resolve] may choose from. *)
Definition has_slug (d : Database) (slug : string) (t : Tool.t) : Prop :=
  t ∈ tools d /\ Tool.slug t = slug.

Definition active_version_of (d : Database) (t : Tool.t) (v : ToolVersion.t) : Prop :=
  v ∈ tool_versions d /\
  ToolVersion.tool_id v = Tool.id t /\
  ToolVersion.status v = active.

Definition version_under (d : Database) (tool_id version_id : string)
    (v : ToolVersion.t) : Prop :=
  v ∈ tool_versions d /\
  ToolVersion.tool_id v = tool_id /\
  ToolVersion.id v = version_id.

(** The calls that write to the store, and the stores they lead to from
    the empty one. *)
Inductive Write : Type :=
| CreateTool (tool : schemas.ToolCreate.t) (gen : Generated)
| CreateToolVersion (tool_id : string) (payload : schemas.ToolVersionCreate.t)
    (gen : Generated)
| UpdateToolVersionStatus (tool_id version_id : string)
    (status_update : schemas.StatusUpdate.t) (now : datetime).

Definition apply_write {engine : QueryEngine} (c : Write) (d : Database) : Database :=
  match c with
  | CreateTool tool gen => snd (registry.create_tool tool gen d)
  | CreateToolVersion tool_id payload gen =>
      snd (registry.create_tool_version tool_id payload gen d)
  | UpdateToolVersionStatus tool_id version_id status_update now =>
      snd (registry.update_tool_version_status tool_id version_id status_update now d)
  end.

Inductive reachable {engine : QueryEngine} : Database -> Prop :=
| reachable_empty : reachable db.empty
| reachable_write (c : Write) (d : Database) :
    reachable d -> reachable (apply_write c d).

(** Following the words of the specification, a URL "carries a scheme
    prefix" when it begins with a scheme (a letter, then letters, digits,
    [+], [-] or [.]) followed by [://]. *)
Definition is_letter (c : ascii) : bool :=
  let n := N_of_ascii c in
  (((65 <=? n) && (n <=? 90)) || ((97 <=? n) && (n <=? 122)))%N.

Definition is_scheme_char (c : ascii) : bool :=
  let n := N_of_ascii c in
  (is_letter c || ((48 <=? n) && (n <=? 57)) ||
   (n =? 43) || (n =? 45) || (n =? 46))%N.

Fixpoint scheme_then_separator (s : string) : bool :=
  match s with
  | EmptyString => false
  | String c rest =>
      if is_scheme_char c then scheme_then_separator rest
      else startswith s "://"
  end.

Definition carries_scheme_prefix (u : string) : bool :=
  match u with
  | EmptyString => false
  | String c rest => is_letter c && scheme_then_separator rest
  end.

Section Gateway.
Import httpx gateway.
Context {env : Environment}.

(** The registry answers the resolve request of [req] with status 200 and a
    body that decodes to an object whose [version] is the object [version]. *)
Definition resolved_version (w : World) (req : ToolCallRequest) (r : Response)
    (version : list (string * JSON)) : Prop :=
  fst (exchange (resolve_request req) (net w)) = Responded r /\
  status_code r = 200 /\
  exists resolved,
    json_loads (text r) = Decoded (JDict resolved) /\
    assoc "version" resolved = Some (JDict version).

(** The method the gateway dispatches with: [endpoint_method] in upper
    case, and POST when the field is missing, null or the empty string.
    (A resolved version has a string or null there.) *)
Definition effective_method (version : list (string * JSON)) : option string :=
  match assoc "endpoint_method" version with
  | None | Some JNull => Some "POST"
  | Some (JStr s) => Some (upper (if String.eqb s "" then "POST" else s))
  | Some _ => None
  end.

(** The [result] member of the reply for a downstream response: the
    decoded body, or the text under [raw] when the body is not JSON.  There
    is none when the decoder gives up on the depth of the body. *)
Definition result_of (resp : Response) : option JSON :=
  match json_loads (text resp) with
  | Decoded v => Some v
  | NotJSON => Some (JDict [("raw", JStr (text resp))])
  | TooDeep => None
  end.

End Gateway.

End spec.

(* ===================================================================== *)
(** * Sample data                                                         *)
(* ===================================================================== *)

Module samples.
Import py models schemas db.

Definition weather : Tool.t :=
  Tool.mk "t-weather" "weather-basic" "Weather" (Some "Basic weather lookup")
          1000 1000.

Definition pollen : Tool.t :=
  Tool.mk "t-pollen" "pollen-index" "Pollen index" None 2000 2000.

Definition weather_version (id : string) (status : ToolStatus)
    (created_at : datetime) : ToolVersion.t :=
  ToolVersion.mk id "t-weather" "1.0.0" status
    [("type", JStr "object")] [("type", JStr "object")]
    "http" (Some "GET") (Some "http://localhost:9005/weather")
    "none" None None None None None created_at created_at.

Definition pollen_draft : ToolVersion.t :=
  ToolVersion.mk "v-pollen-1" "t-pollen" "0.1.0" draft
    [("type", JStr "object")] [("type", JStr "object")]
    "http" None (Some "localhost:9006/pollen")
    "none" None None None None None 2500 2500.

(** Two tools; the weather tool has two active versions and a retired one,
    the pollen tool a draft only. *)
Definition store : Database :=
  mkDatabase [weather; pollen]
    [weather_version "v-weather-1" active 3000;
     weather_version "v-weather-2" active 4000;
     weather_version "v-weather-3" retired 5000;
     pollen_draft].

(** The weather tool with two active versions created at the same
    instant, after an older active one. *)
Definition store_with_tie : Database :=
  mkDatabase [weather; pollen]
    [weather_version "v-weather-1" active 3000;
     weather_version "v-weather-2" active 4000;
     weather_version "v-weather-3" active 4000;
     pollen_draft].

(** The create-version request of the local test runner: it asks for an
    active version outright. *)
Definition active_body : ToolVersionBody.t :=
  ToolVersionBody.mk "1.0.0" (Some active)
    [("type", JStr "object")] [("type", JStr "object")]
    "http" (Some "GET") (Some "http://localhost:9005/weather")
    (Some "none") None None None None None.

Definition generated : Generated := mkGenerated "v-weather-4" 6000 6000.

(** The same request without a status. *)
Definition plain_body : ToolVersionBody.t :=
  ToolVersionBody.mk "1.1.0" None
    [("type", JStr "object")] [("type", JStr "object")]
    "http" (Some "GET") (Some "http://localhost:9005/weather")
    None None None None None None.

(** What the registry serves for a resolved weather tool, with the given
    endpoint fields of the version. *)
Definition version_fields (endpoint_protocol : string)
    (endpoint_method endpoint_url : JSON) : list (string * JSON) :=
  [("id", JStr "v-weather-2");
   ("status", JStr "active");
   ("endpoint_protocol", JStr endpoint_protocol);
   ("endpoint_method", endpoint_method);
   ("endpoint_url", endpoint_url)].

Definition resolved_weather (endpoint_protocol : string)
    (endpoint_method endpoint_url : JSON) : JSON :=
  JDict [("tool", JDict [("id", JStr "t-weather"); ("slug", JStr "weather-basic")]);
         ("version",
          JDict (version_fields endpoint_protocol endpoint_method endpoint_url))].

(** Bodies are named here rather than spelled out; the decoder of the
    sample environment knows these documents and nothing else. *)
Definition documents : list (string * JSON) :=
  [("resolved: GET http://localhost:9005/weather",
    resolved_weather "http" (JStr "GET") (JStr "http://localhost:9005/weather"));
   ("resolved: get http://localhost:9005/weather",
    resolved_weather "http" (JStr "get") (JStr "http://localhost:9005/weather"));
   ("resolved: POST localhost:9006/pollen",
    resolved_weather "https" JNull (JStr "localhost:9006/pollen"));
   ("resolved: GET httpd.local:9005/weather",
    resolved_weather "http" (JStr "GET") (JStr "httpd.local:9005/weather"));
   ("resolved: long-s post http://localhost:9005/weather",
    resolved_weather "http" (JStr "poſt") (JStr "http://localhost:9005/weather"));
   ("weather report",
    JDict [("temperatureC", JInt 21); ("description", JStr "Sunny")])].

(** A body of [depth] opening brackets followed by as many closing ones:
    well-formed JSON, nested [depth] deep. *)
Fixpoint repeated (c : ascii) (n : nat) (rest : string) : string :=
  match n with
  | O => rest
  | S n => String c (repeated c n rest)
  end.

Definition nested_body (depth : nat) : string :=
  repeated "["%char depth (repeated "]"%char depth EmptyString).

(** A list nested a hundred thousand deep. *)
Definition deeply_nested : string := nested_body (100 * 1000).

(** How deep a body opens: the number of its leading brackets. *)
Fixpoint leading_brackets (body : string) : nat :=
  match body with
  | String c rest =>
      if Ascii.eqb c "["%char then S (leading_brackets rest) else O
  | EmptyString => O
  end.

(** The depth the decoder of the sample environments follows: the default
    of [sys.getrecursionlimit()]. *)
Definition recursion_limit : nat := 1000.

(** The decoder of the sample environments: it gives up on a body that
    opens deeper than the recursion limit, knows the documents of a table,
    and takes every other body for text that is not JSON. *)
Definition decode (table : list (string * JSON)) (body : string) : httpx.Decoding :=
  if (recursion_limit <? leading_brackets body)%nat then httpx.TooDeep
  else match assoc body table with
       | Some v => httpx.Decoded v
       | None => httpx.NotJSON
       end.

(** [str.upper()] on the one string of the samples that is not ASCII: the
    upper case of the long s, U+017F, is [S]. *)
Definition sample_upper (s : string) : string :=
  if String.eqb s "poſt" then "POST" else s.

(** A network that plays back a script of answers, one per exchange. *)
Definition scripted : httpx.Environment :=
  httpx.Build_Environment (list httpx.Answer)
    (fun _ script =>
       match script with
       | a :: rest => (a, rest)
       | [] => (httpx.TransportFailure "connection refused", [])
       end)
    (decode documents)
    sample_upper
    (fun _ => "<repr>")
    "http://localhost:8001".

Definition paris : gateway.ToolCallRequest :=
  gateway.mkToolCallRequest "weather-basic" [("city", JStr "Paris")].

Definition world (script : list httpx.Answer) : @httpx.World scripted :=
  @httpx.mkWorld scripted script [].

Definition registry_says (body : string) : httpx.Answer :=
  httpx.Responded (httpx.mkResponse 200 body).

(** The weather tool behind a GET endpoint, and a tool registered with a
    host-relative URL and no method. *)
Definition weather_version_fields : list (string * JSON) :=
  version_fields "http" (JStr "GET") (JStr "http://localhost:9005/weather").

Definition weather_world : @httpx.World scripted :=
  world [registry_says "resolved: GET http://localhost:9005/weather";
         httpx.Responded (httpx.mkResponse 200 "weather report")].

Definition pollen_version_fields : list (string * JSON) :=
  version_fields "https" JNull (JStr "localhost:9006/pollen").

Definition pollen_world : @httpx.World scripted :=
  world [registry_says "resolved: POST localhost:9006/pollen";
         httpx.Responded (httpx.mkResponse 200 "weather report")].

(** The gateway run for the request [paris] against a script. *)
Definition run (script : list httpx.Answer)
  : Outcome JSON * @httpx.World scripted :=
  @gateway.call_tool scripted paris (world script).

End samples.

(* ===================================================================== *)
(** * tool-registry/app/main.py: the listing of tools                     *)
(* ===================================================================== *)

Module tool_listing.
Import py models schemas db.
Local Open Scope py_scope.

(** The SQL operator [value ILIKE pattern], which the engine evaluates. *)
Class LikeOperator : Type := {
  ilike : string -> string -> bool
}.

Section Handlers.
Context {engine : QueryEngine} {like_operator : LikeOperator}.

(** [search] is the optional query parameter; [if search:] is false for
    [None] and for the empty string. *)
Definition list_tools (search : option string) : Query (list ToolRead) :=
  rows <- query_Tool ;;
  let q :=
    match search with
    | Some s =>
        if negb (String.eqb s "") then
          let like := "%" +:+ s +:+ "%" in
          filter (fun t => ilike (Tool.slug t) like
                           || ilike (Tool.display_name t) like = true) rows
        else rows
    | None => rows
    end in
  ret (order_by_desc Tool.created_at q).

End Handlers.
End tool_listing.

(* ===================================================================== *)
(** * Vocabulary for the listings and the store                           *)
(* ===================================================================== *)

Module listing_spec.
Import py models db.

(** The optional status filter of a listing. *)
Definition matches_status (status : option ToolStatus) (v : ToolVersion.t) : Prop :=
  match status with
  | Some s => ToolVersion.status v = s
  | None => True
  end.

#[global] Instance matches_status_dec (status : option ToolStatus)
    (v : ToolVersion.t) : Decision (matches_status status v).
Proof. destruct status; simpl; apply _. Defined.

(** Newest first: no row is older than a row that comes after it. *)
Definition newest_first {A : Type} (created_at : A -> Z) (rows : list A) : Prop :=
  StronglySorted (fun a b => created_at b <= created_at a) rows.

End listing_spec.

(* ===================================================================== *)
(** * variability-engine/app/main.py                                      *)
(* ===================================================================== *)

Module variability.
Import py httpx.
Local Open Scope py_scope.

Inductive MutationType : Type :=
| RENAME_PARAM
| ADD_PARAM
| REMOVE_PARAM
| ADD_FIELD_TO_RESPONSE
| REMOVE_FIELD_FROM_RESPONSE
| DEPRECATE_VERSION
| CREATE_NEW_VERSION.

(** The validated request; [mode] is ["dry-run"] when the body omits it. *)
Record Mutation : Type := mkMutation {
  type : MutationType;
  toolId : string;
  toolVersionId : option string;
  payload : list (string * JSON);
  mode : string
}.

Record ApplyMutationResponse : Type := mkApplyMutationResponse {
  mutation : Mutation;
  note : string;
  currentVersion : option (list (string * JSON));
  newVersionPreview : option (list (string * JSON))
}.

(** [{**d, key: value}]: the key keeps its place when [d] has it already,
    and goes to the end otherwise. *)
Fixpoint dict_set (d : list (string * JSON)) (key : string) (value : JSON)
  : list (string * JSON) :=
  match d with
  | [] => [(key, value)]
  | (k, v) :: rest =>
      if String.eqb k key then (k, value) :: rest
      else (k, v) :: dict_set rest key value
  end.

(** How the handler ends: with its response, with an exception of the
    client or the decoder, or with the [TypeError] of unpacking, with [**],
    a value that is not a mapping. *)
Inductive Result : Type :=
| Responds (response : ApplyMutationResponse)
| Raises (e : Exception)
| RaisesTypeError.

Section Handlers.
Context {env : Environment}.

Definition version_url (m : Mutation) (version_id : string) : string :=
  REGISTRY_BASE_URL +:+ "/tools/" +:+ toolId m +:+ "/versions/" +:+ version_id.

(** The first part of the handler: [current_version], which stays [None]
    unless a version id is given and the registry answers 200. *)
Definition fetch_current_version (m : Mutation) : M World JSON :=
  match toolVersionId m with
  | Some version_id =>
      if negb (String.eqb version_id "") then
        r <- send (mkRequest "GET" (version_url m version_id) None None) ;;
        if status_code r =? 200 then Response_json r else ret JNull
      else ret JNull
  | None => ret JNull
  end.

Definition note_for (m : Mutation) : string :=
  if String.eqb (mode m) "dry-run"
  then "dry-run only; no change applied. Extend this service to write back to registry."
  else "commit mode requested, but this stub only previews changes.".

Definition apply_mutation (m : Mutation) : World -> Result * World :=
  fun w =>
    match fetch_current_version m w with
    | (Raise e, w') => (Raises e, w')
    | (Return current_version, w') =>
        match current_version with
        | JNull =>
            (Responds (mkApplyMutationResponse m (note_for m) None None), w')
        | JDict fields =>
            (Responds (mkApplyMutationResponse m (note_for m) (Some fields)
                         (Some (dict_set fields "mutationPayload"
                                         (JDict (payload m))))), w')
        | _ => (RaisesTypeError, w')
        end
    end.

End Handlers.
End variability.

(* ===================================================================== *)
(** * More sample data                                                    *)
(* ===================================================================== *)

Module more_samples.
Import py models schemas db samples.

(** The weather tool with one active version and an older retired one. *)
Definition single_active_store : Database :=
  mkDatabase [weather]
    [weather_version "v-weather-0" retired 2000;
     weather_version "v-weather-1" active 3000].

(** A version without [endpoint_protocol] and a host-relative URL, and a
    version without [endpoint_url] and with a method the gateway does not
    support. *)
Definition bare_version_fields : list (string * JSON) :=
  [("id", JStr "v-bare");
   ("endpoint_method", JStr "GET");
   ("endpoint_url", JStr "localhost:9005/weather")].

Definition unset_version_fields : list (string * JSON) :=
  [("id", JStr "v-unset");
   ("endpoint_protocol", JStr "http");
   ("endpoint_method", JStr "PUT")].

Definition stored_version_fields : list (string * JSON) :=
  [("id", JStr "v-weather-2");
   ("version", JStr "1.0.0");
   ("status", JStr "active")].

Definition weather_tool : JSON :=
  JDict [("id", JStr "t-weather"); ("slug", JStr "weather-basic")].

Definition more_documents : list (string * JSON) :=
  [("resolved: bare",
    JDict [("tool", weather_tool); ("version", JDict bare_version_fields)]);
   ("resolved: unset",
    JDict [("tool", weather_tool); ("version", JDict unset_version_fields)]);
   ("version v-weather-2", JDict stored_version_fields);
   ("weather report",
    JDict [("temperatureC", JInt 21); ("description", JStr "Sunny")])].

Definition scripted_more : httpx.Environment :=
  httpx.Build_Environment (list httpx.Answer)
    (fun _ script =>
       match script with
       | a :: rest => (a, rest)
       | [] => (httpx.TransportFailure "connection refused", [])
       end)
    (decode more_documents)
    sample_upper
    (fun _ => "<repr>")
    "http://localhost:8001".

Definition bare_world : @httpx.World scripted_more :=
  @httpx.mkWorld scripted_more
    [httpx.Responded (httpx.mkResponse 200 "resolved: bare");
     httpx.Responded (httpx.mkResponse 200 "weather report")] [].

Definition unset_world : @httpx.World scripted_more :=
  @httpx.mkWorld scripted_more
    [httpx.Responded (httpx.mkResponse 200 "resolved: unset")] [].

Definition version_world : @httpx.World scripted_more :=
  @httpx.mkWorld scripted_more
    [httpx.Responded (httpx.mkResponse 200 "version v-weather-2")] [].

Definition rename_city : variability.Mutation :=
  variability.mkMutation variability.RENAME_PARAM "t-weather" (Some "v-weather-2")
    [("from", JStr "city"); ("to", JStr "town")] "dry-run".

End more_samples.

(* ===================================================================== *)
(** * A reference engine: merge sort                                      *)
(* ===================================================================== *)

Module engines.
Import db.

Definition desc {A : Type} (key : A -> Z) : relation A :=
  fun a b => key b <= key a.

#[global] Instance desc_dec {A : Type} (key : A -> Z) (a b : A) :
  Decision (desc key a b).
Proof. unfold desc. apply _. Defined.

#[global] Instance desc_total {A : Type} (key : A -> Z) : Total (desc key).
Proof. intros a b. unfold desc. lia. Qed.

#[global] Instance desc_trans {A : Type} (key : A -> Z) : Transitive (desc key).
Proof. intros a b c. unfold desc. lia. Qed.

(** An engine that sorts the scanned rows with a merge sort. *)
#[global] Program Instance merge_sort_engine : QueryEngine := {|
  order_by_desc A key rows := merge_sort (desc key) rows
|}.
Next Obligation. intros A key rows. apply merge_sort_Permutation. Qed.
Next Obligation. intros A key rows. apply (Sorted_merge_sort (desc key)). Qed.

(** An engine that sorts by insertion and keeps rows of equal key in the
    order of the table; the merge sort above does not. *)
Fixpoint insert_desc {A : Type} (key : A -> Z) (a : A) (rows : list A) : list A :=
  match rows with
  | [] => [a]
  | b :: rest =>
      if decide (desc key a b) then a :: rows else b :: insert_desc key a rest
  end.

Definition insertion_sort {A : Type} (key : A -> Z) (rows : list A) : list A :=
  foldr (insert_desc key) [] rows.

Program Definition insertion_sort_engine : QueryEngine := {|
  order_by_desc A key rows := insertion_sort key rows
|}.
Next Obligation.
  intros A key rows. unfold insertion_sort.
  induction rows as [|a rest IH]; simpl; [reflexivity|].
  rewrite <- IH at 2. generalize (foldr (insert_desc key) [] rest). clear.
  intros rows. induction rows as [|b rows IH]; simpl; [reflexivity|].
  destruct (decide _); [reflexivity|]. rewrite IH. apply Permutation_swap.
Qed.
Next Obligation.
  intros A key rows. unfold insertion_sort.
  induction rows as [|a rest IH]; simpl; [constructor|].
  revert IH. generalize (foldr (insert_desc key) [] rest). clear rest.
  intros rows. induction rows as [|b rest IH]; simpl; intros Hsorted.
  - repeat constructor.
  - destruct (decide (desc key a b)) as [Hab|Hab].
    + constructor; [exact Hsorted|]. now constructor.
    + apply Sorted_inv in Hsorted as [Hrest Hhead].
      constructor; [now apply IH|].
      destruct rest as [|c rest]; simpl.
      * constructor. unfold desc in *. lia.
      * destruct (decide _); constructor.
        -- unfold desc in *. lia.
        -- now apply HdRel_inv in Hhead.
Qed.

(** A loader that returns the rows in the order of the table. *)
#[global] Program Instance table_order_loader : RelationshipLoader := {|
  load A rows := rows
|}.
Next Obligation. reflexivity. Qed.

End engines.

(* ===================================================================== *)
(** * Queries over keyed rows                                             *)
(* ===================================================================== *)

Section Keyed.
Import py db.
Context {A B : Type} (f : A -> B) (P : A -> Prop) `{!forall x, Decision (P x)}.

(** A filter that pins a duplicate-free column selects at most one row. *)
Lemma filter_keyed (k : B) (l : list A) :
  NoDup (f <$> l) ->
  (forall x, P x -> f x = k) ->
  filter P l = [] \/ exists x, filter P l = [x].
Proof.
  intros ND HP. induction l as [|a l IH]; [now left|].
  rewrite fmap_cons in ND. apply NoDup_cons in ND as [Ha ND].
  specialize (IH ND). rewrite filter_cons. destruct (decide (P a)) as [Pa|Pa].
  - right. exists a. f_equal.
    destruct IH as [E|[y E]]; [exact E|exfalso].
    assert (Hy : y ∈ filter P l) by (rewrite E; apply list_elem_of_singleton; reflexivity).
    apply list_elem_of_filter in Hy as [Py Hy]. apply Ha.
    rewrite (HP a Pa), <- (HP y Py). now apply list_elem_of_fmap_2.
  - exact IH.
Qed.

(** On a keyed filter [one_or_none] never finds several rows: it returns
    the row that satisfies the filter, or [None] when there is none. *)
Lemma one_or_none_keyed (k : B) (l : list A) (d : Database) :
  NoDup (f <$> l) ->
  (forall x, P x -> f x = k) ->
  (one_or_none (filter P l) d = (Return None, d) /\ forall x, x ∈ l -> ~ P x) \/
  (exists x, one_or_none (filter P l) d = (Return (Some x), d) /\
             x ∈ l /\ P x /\ forall y, y ∈ l -> P y -> y = x).
Proof.
  intros ND HP. destruct (filter_keyed k l ND HP) as [E|[x E]].
  - left. split; [now rewrite E|].
    intros x Hx Px. eapply filter_nil_not_elem_of; eauto.
  - right. exists x. split; [now rewrite E|].
    assert (Hx : x ∈ filter P l) by (rewrite E; now apply list_elem_of_singleton).
    apply list_elem_of_filter in Hx as [Px Hx]. repeat split; auto.
    intros y Hy Py.
    assert (Hy' : y ∈ filter P l) by (apply list_elem_of_filter; auto).
    rewrite E in Hy'. now apply list_elem_of_singleton in Hy'.
Qed.

End Keyed.

(* ===================================================================== *)
(** * The resolver                                                        *)
(* ===================================================================== *)

Section Resolver.
Import py models schemas db registry spec.
Context {engine : QueryEngine}.

(** The first row of [ORDER BY key DESC] is a row of the input whose key no
    other row exceeds; there is one as soon as the input is not empty. *)
Lemma first_order_by_desc {A : Type} (key : A -> Z) (rows : list A) :
  match first (order_by_desc key rows) with
  | None => rows = []
  | Some top => top ∈ rows /\ forall r, r ∈ rows -> key r <= key top
  end.
Proof.
  pose proof (order_by_desc_perm A key rows) as Hperm.
  pose proof (order_by_desc_sorted A key rows) as Hsort.
  destruct (order_by_desc key rows) as [|top rest] eqn:E; simpl.
  - symmetry in Hperm. now apply Permutation_nil_r in Hperm.
  - split.
    + rewrite <- Hperm. apply list_elem_of_here.
    + intros r Hr. rewrite <- Hperm in Hr.
      apply Sorted.Sorted_StronglySorted in Hsort; [|intros a b c; lia].
      apply StronglySorted_inv in Hsort as [_ Hall].
      apply elem_of_cons in Hr as [->|Hr]; [lia|].
      rewrite Forall_forall in Hall. now apply Hall.
Qed.

Lemma resolve_tool_lookup (d : Database) (slug : string) :
  db_ok d ->
  (one_or_none (filter (fun r => Tool.slug r = slug) (tools d)) d
     = (Return None, d) /\ forall t, ~ has_slug d slug t) \/
  (exists t, one_or_none (filter (fun r => Tool.slug r = slug) (tools d)) d
               = (Return (Some t), d) /\
             has_slug d slug t /\ forall t', has_slug d slug t' -> t' = t).
Proof.
  intros Hok.
  destruct (one_or_none_keyed Tool.slug (fun r => Tool.slug r = slug) slug
              (tools d) d (tools_slug_unique d Hok)) as [[E Hno]|[t (E & Ht & Hs & Huniq)]];
    [auto| |].
  - left. split; [exact E|]. intros t [Ht Hs]. exact (Hno t Ht Hs).
  - right. exists t. split; [exact E|]. split; [now split|].
    intros t' [Ht' Hs']. now apply Huniq.
Qed.

Lemma resolve_tool_unknown_slug (d : Database) (slug : string) :
  db_ok d ->
  (forall t, ~ has_slug d slug t) ->
  resolve_tool slug d = (Raise (NotFound "Tool not found"), d).
Proof.
  intros Hok Hno. unfold resolve_tool, query_Tool, bind.
  destruct (resolve_tool_lookup d slug Hok) as [[E _]|[t (_ & Ht & _)]];
    [now rewrite E|exfalso; exact (Hno t Ht)].
Qed.

(** Once the tool is found, the outcome is decided by the first row of the
    ordered active versions. *)
Lemma resolve_tool_found (d : Database) (slug : string) (t : Tool.t) :
  db_ok d ->
  has_slug d slug t ->
  resolve_tool slug d =
  match first (order_by_desc ToolVersion.created_at
                 (filter (fun v => ToolVersion.tool_id v = Tool.id t /\
                                   ToolVersion.status v = active)
                         (tool_versions d))) with
  | None => (Raise (NotFound "No active version for this tool"), d)
  | Some v => (Return (Resolved.mk t v), d)
  end.
Proof.
  intros Hok Ht. unfold resolve_tool, query_Tool, query_ToolVersion, bind.
  destruct (resolve_tool_lookup d slug Hok) as [[_ Hno]|[t0 (E & _ & Huniq)]];
    [exfalso; exact (Hno t Ht)|].
  rewrite E. apply Huniq in Ht as ->.
  destruct (first _); reflexivity.
Qed.

Lemma resolve_tool_no_active (d : Database) (slug : string) (t : Tool.t) :
  db_ok d ->
  has_slug d slug t ->
  (forall v, ~ active_version_of d t v) ->
  resolve_tool slug d = (Raise (NotFound "No active version for this tool"), d).
Proof.
  intros Hok Ht Hnone. rewrite (resolve_tool_found d slug t Hok Ht).
  pose proof (first_order_by_desc ToolVersion.created_at
        (filter (fun v => ToolVersion.tool_id v = Tool.id t /\
                          ToolVersion.status v = active) (tool_versions d)))
    as Hfirst.
  destruct (first _) as [top|]; [|reflexivity].
  destruct Hfirst as [Htop _]. apply list_elem_of_filter in Htop as [[H1 H2] H3].
  exfalso. apply (Hnone top). now repeat split.
Qed.

Lemma resolve_tool_selects (d : Database) (slug : string) (t : Tool.t) :
  db_ok d ->
  has_slug d slug t ->
  (exists v, active_version_of d t v) ->
  exists v,
    resolve_tool slug d = (Return (Resolved.mk t v), d) /\
    active_version_of d t v /\
    forall w, active_version_of d t w ->
              ToolVersion.created_at w <= ToolVersion.created_at v.
Proof.
  intros Hok Ht [v (Hv & Hvt & Hvs)]. rewrite (resolve_tool_found d slug t Hok Ht).
  pose proof (first_order_by_desc ToolVersion.created_at
        (filter (fun v => ToolVersion.tool_id v = Tool.id t /\
                          ToolVersion.status v = active) (tool_versions d)))
    as Hfirst.
  destruct (first _) as [top|].
  - destruct Hfirst as [Htop Hmax]. exists top. split; [reflexivity|].
    apply list_elem_of_filter in Htop as [[H1 H2] H3].
    split; [now repeat split|].
    intros w (Hw & Hwt & Hws). apply Hmax.
    apply list_elem_of_filter. now repeat split.
  - exfalso.
    assert (Hin : v ∈ filter (fun v => ToolVersion.tool_id v = Tool.id t /\
                      ToolVersion.status v = active) (tool_versions d))
      by (apply list_elem_of_filter; now repeat split).
    rewrite Hfirst in Hin. now apply elem_of_nil in Hin.
Qed.

(** C1: [resolve(slug)] fails with NotFound when no tool has the slug; it
    fails with NotFound when the tool has no version of status [active];
    otherwise it returns the tool together with an active version of that
    tool whose [created_at] no other active version of the tool exceeds.
    The store is left as it was in every case. *)
Theorem resolve_tool_spec (d : Database) (slug : string) :
  db_ok d ->
  ((forall t, ~ has_slug d slug t) ->
   resolve_tool slug d = (Raise (NotFound "Tool not found"), d)) /\
  (forall t, has_slug d slug t ->
     (forall v, ~ active_version_of d t v) ->
     resolve_tool slug d = (Raise (NotFound "No active version for this tool"), d)) /\
  (forall t, has_slug d slug t ->
     (exists v, active_version_of d t v) ->
     exists v,
       resolve_tool slug d = (Return (Resolved.mk t v), d) /\
       active_version_of d t v /\
       forall w, active_version_of d t w ->
                 ToolVersion.created_at w <= ToolVersion.created_at v).
Proof.
  intros Hok. split; [|split].
  - now apply resolve_tool_unknown_slug.
  - intros t Ht Hnone. now apply (resolve_tool_no_active d slug t).
  - intros t Ht Hsome. now apply resolve_tool_selects.
Qed.

(** A run of [resolve] reads the store and leaves it as it was. *)
Lemma resolve_tool_reads_only (d : Database) (slug : string) :
  snd (resolve_tool slug d) = d.
Proof.
  unfold resolve_tool, query_Tool, query_ToolVersion, bind, one_or_none, ret, raise.
  destruct (filter _ (tools d)) as [|t [|t' rest]]; simpl; try reflexivity.
  destruct (first _); reflexivity.
Qed.

End Resolver.

(* ===================================================================== *)
(** * The tool store                                                      *)
(* ===================================================================== *)

Section Store.
Import py models schemas db registry spec.
Context {engine : QueryEngine}.

Lemma db_ok_empty : db_ok db.empty.
Proof. split; simpl; try constructor. intros v Hv. now apply elem_of_nil in Hv. Qed.

(** An INSERT that goes through keeps the constraints of [tools]. *)
Lemma add_Tool_db_ok (row : Tool.t) (d d' : Database) (o : Outcome unit) :
  db_ok d -> add_Tool row d = (o, d') -> db_ok d'.
Proof.
  intros Hok. unfold add_Tool.
  destruct (bool_decide (Tool.id row ∈ Tool.id <$> tools d)) eqn:Hid; simpl.
  { intros [= _ <-]. exact Hok. }
  destruct (bool_decide (Tool.slug row ∈ Tool.slug <$> tools d)) eqn:Hslug; simpl.
  { intros [= _ <-]. exact Hok. }
  intros [= _ <-]. apply bool_decide_eq_false in Hid, Hslug.
  destruct Hok as [Hpk Hu Hvpk Hfk]. split; simpl; auto.
  - rewrite fmap_app. apply NoDup_app. split; [exact Hpk|]. split.
    + intros x Hx Hx'. apply list_elem_of_singleton in Hx'. now subst.
    + apply NoDup_singleton.
  - rewrite fmap_app. apply NoDup_app. split; [exact Hu|]. split.
    + intros x Hx Hx'. apply list_elem_of_singleton in Hx'. now subst.
    + apply NoDup_singleton.
  - intros v Hv. rewrite fmap_app. apply elem_of_app. left. now apply Hfk.
Qed.

Lemma create_tool_db_ok (tool : ToolCreate.t) (gen : Generated) (d : Database) :
  db_ok d -> db_ok (snd (create_tool tool gen d)).
Proof.
  intros Hok. unfold create_tool, query_Tool, bind.
  destruct (resolve_tool_lookup d (ToolCreate.slug tool) Hok)
    as [[E _]|[t (E & _)]]; rewrite E; simpl; [|exact Hok].
  destruct (add_Tool _ d) as [[[]|e] d'] eqn:Ea; simpl;
    eapply add_Tool_db_ok; eauto.
Qed.

(** When no row has the slug and the generated id is new, the tool is
    inserted at the end of the table. *)
Lemma create_tool_fresh (tool : ToolCreate.t) (gen : Generated) (d : Database) :
  db_ok d ->
  (forall t, ~ has_slug d (ToolCreate.slug tool) t) ->
  uuid4 gen ∉ Tool.id <$> tools d ->
  let row := Tool.mk (uuid4 gen) (ToolCreate.slug tool)
               (ToolCreate.display_name tool) (ToolCreate.description tool)
               (utcnow_created_at gen) (utcnow_updated_at gen) in
  create_tool tool gen d
    = (Return row, mkDatabase (tools d ++ [row]) (tool_versions d)).
Proof.
  intros Hok Hno Hid row. unfold create_tool, query_Tool, bind.
  destruct (resolve_tool_lookup d (ToolCreate.slug tool) Hok)
    as [[E _]|[t (_ & Ht & _)]]; [|exfalso; exact (Hno t Ht)].
  rewrite E. unfold add_Tool. simpl.
  rewrite (bool_decide_eq_false_2 _ Hid). simpl.
  rewrite bool_decide_eq_false_2; [reflexivity|].
  intros Hin. apply list_elem_of_fmap in Hin as [t [Hs Ht]].
  apply (Hno t). now split.
Qed.

(** When a row has the slug, the call is refused and nothing is written. *)
Lemma create_tool_conflict (tool : ToolCreate.t) (gen : Generated) (d : Database)
    (t : Tool.t) :
  db_ok d ->
  has_slug d (ToolCreate.slug tool) t ->
  create_tool tool gen d
    = (Raise (Conflict "Tool with this slug already exists"), d).
Proof.
  intros Hok Ht. unfold create_tool, query_Tool, bind.
  destruct (resolve_tool_lookup d (ToolCreate.slug tool) Hok)
    as [[_ Hno]|[t' (E & _)]]; [exfalso; exact (Hno t Ht)|].
  now rewrite E.
Qed.

Lemma has_slug_filter (d : Database) (slug : string) (t : Tool.t) :
  db_ok d -> has_slug d slug t ->
  filter (fun r => Tool.slug r = slug) (tools d) = [t].
Proof.
  intros Hok [Ht Hs].
  destruct (filter_keyed Tool.slug (fun r => Tool.slug r = slug) slug (tools d)
              (tools_slug_unique d Hok)) as [E|[x E]]; [auto| |].
  - exfalso. exact (filter_nil_not_elem_of _ _ t E Hs Ht).
  - assert (Hin : t ∈ filter (fun r => Tool.slug r = slug) (tools d))
      by (apply list_elem_of_filter; auto).
    rewrite E in Hin. apply list_elem_of_singleton in Hin. now subst.
Qed.

(** C3: of two [createTool] calls with the same slug the second fails with
    Conflict; the failing call leaves the store unchanged, and the store
    then holds exactly one Tool record with that slug.  (The id generated
    for the first call is taken to be a new one.) *)
Theorem create_tool_same_slug_twice (d : Database) (tool1 tool2 : ToolCreate.t)
    (gen1 gen2 : Generated) :
  db_ok d ->
  ToolCreate.slug tool2 = ToolCreate.slug tool1 ->
  uuid4 gen1 ∉ Tool.id <$> tools d ->
  let '(first_call, d1) := create_tool tool1 gen1 d in
  let '(second_call, d2) := create_tool tool2 gen2 d1 in
  second_call = Raise (Conflict "Tool with this slug already exists") /\
  d2 = d1 /\
  exists t, filter (fun r => Tool.slug r = ToolCreate.slug tool1) (tools d2) = [t].
Proof.
  intros Hok Hslug Hid.
  pose proof (create_tool_db_ok tool1 gen1 d Hok) as Hok1.
  assert (Hhas : exists t, has_slug (snd (create_tool tool1 gen1 d))
                             (ToolCreate.slug tool1) t).
  { destruct (resolve_tool_lookup d (ToolCreate.slug tool1) Hok)
      as [[_ Hno]|[t (_ & Ht & _)]].
    - rewrite (create_tool_fresh tool1 gen1 d Hok Hno Hid). simpl.
      eexists. split; [apply elem_of_app; right; apply list_elem_of_singleton;
                       reflexivity|reflexivity].
    - exists t. now rewrite (create_tool_conflict tool1 gen1 d t Hok Ht). }
  destruct (create_tool tool1 gen1 d) as [first_call d1]. simpl in Hok1, Hhas.
  destruct Hhas as [t Ht].
  assert (Ht2 : has_slug d1 (ToolCreate.slug tool2) t) by now rewrite Hslug.
  rewrite (create_tool_conflict tool2 gen2 d1 t Hok1 Ht2).
  split; [reflexivity|]. split; [reflexivity|].
  exists t. now apply has_slug_filter.
Qed.

End Store.

(* ===================================================================== *)
(** * Versions and their lifecycle                                        *)
(* ===================================================================== *)

Section Versions.
Import py models schemas db registry spec.
Context {engine : QueryEngine}.

Lemma tool_lookup_by_id (d : Database) (tool_id : string) :
  db_ok d ->
  (one_or_none (filter (fun r => Tool.id r = tool_id) (tools d)) d
     = (Return None, d) /\ tool_id ∉ Tool.id <$> tools d) \/
  (exists t, one_or_none (filter (fun r => Tool.id r = tool_id) (tools d)) d
               = (Return (Some t), d) /\ t ∈ tools d /\ Tool.id t = tool_id).
Proof.
  intros Hok.
  destruct (one_or_none_keyed Tool.id (fun r => Tool.id r = tool_id) tool_id
              (tools d) d (tools_pk d Hok)) as [[E Hno]|[t (E & Ht & Hs & _)]];
    [auto| |].
  - left. split; [exact E|]. intros Hin.
    apply list_elem_of_fmap in Hin as [t [Hs Ht]]. now apply (Hno t Ht).
  - right. exists t. auto.
Qed.

Lemma version_lookup (d : Database) (tool_id version_id : string) :
  db_ok d ->
  (one_or_none (filter (fun v => ToolVersion.tool_id v = tool_id /\
                                 ToolVersion.id v = version_id)
                       (tool_versions d)) d
     = (Return None, d) /\ forall v, ~ version_under d tool_id version_id v) \/
  (exists v, one_or_none (filter (fun v => ToolVersion.tool_id v = tool_id /\
                                           ToolVersion.id v = version_id)
                                 (tool_versions d)) d
               = (Return (Some v), d) /\
             version_under d tool_id version_id v /\
             forall w, version_under d tool_id version_id w -> w = v).
Proof.
  intros Hok.
  destruct (one_or_none_keyed ToolVersion.id
              (fun v => ToolVersion.tool_id v = tool_id /\
                        ToolVersion.id v = version_id) version_id
              (tool_versions d) d (tool_versions_pk d Hok))
    as [[E Hno]|[v (E & Hv & [Ht Hi] & Huniq)]]; [now intros x [_ Hx]| |].
  - left. split; [exact E|]. intros v (Hv & Ht & Hi). now apply (Hno v Hv).
  - right. exists v. split; [exact E|]. split; [now repeat split|].
    intros w (Hw & Hwt & Hwi). now apply Huniq.
Qed.

Lemma add_ToolVersion_db_ok (row : ToolVersion.t) (d d' : Database)
    (o : Outcome unit) :
  db_ok d -> ToolVersion.tool_id row ∈ Tool.id <$> tools d ->
  add_ToolVersion row d = (o, d') -> db_ok d'.
Proof.
  intros Hok Hfk. unfold add_ToolVersion.
  destruct (bool_decide (ToolVersion.id row ∈ ToolVersion.id <$> tool_versions d))
    eqn:Hid; simpl.
  { intros [= _ <-]. exact Hok. }
  intros [= _ <-]. apply bool_decide_eq_false in Hid.
  destruct Hok as [Hpk Hu Hvpk Hvfk]. split; simpl; auto.
  - rewrite fmap_app. apply NoDup_app. split; [exact Hvpk|]. split.
    + intros x Hx Hx'. apply list_elem_of_singleton in Hx'. now subst.
    + apply NoDup_singleton.
  - intros v Hv. apply elem_of_app in Hv as [Hv|Hv]; [now apply Hvfk|].
    apply list_elem_of_singleton in Hv. now subst.
Qed.

Lemma create_tool_version_db_ok (tool_id : string) (payload : ToolVersionCreate.t)
    (gen : Generated) (d : Database) :
  db_ok d -> db_ok (snd (create_tool_version tool_id payload gen d)).
Proof.
  intros Hok. unfold create_tool_version, query_Tool, bind.
  destruct (tool_lookup_by_id d tool_id Hok) as [[E _]|[t (E & Ht & Hid)]];
    rewrite E; simpl; [exact Hok|].
  destruct (add_ToolVersion _ d) as [[[]|e] d'] eqn:Ea; simpl;
    (eapply add_ToolVersion_db_ok; [exact Hok| |exact Ea]);
    simpl; now apply list_elem_of_fmap_2.
Qed.

Lemma replace_row_id (row : ToolVersion.t) (l : list ToolVersion.t) :
  ToolVersion.id <$> (replace_row row <$> l) = ToolVersion.id <$> l.
Proof.
  rewrite <- list_fmap_compose. apply list_fmap_ext. intros i r _. simpl.
  unfold replace_row. destruct (decide _) as [->|]; reflexivity.
Qed.

Lemma update_ToolVersion_db_ok (v : ToolVersion.t) (s : ToolStatus) (now : datetime)
    (d : Database) :
  db_ok d -> v ∈ tool_versions d ->
  db_ok (snd (update_ToolVersion (ToolVersion.set_status v s now) d)).
Proof.
  intros [Hpk Hu Hvpk Hvfk] Hv. unfold update_ToolVersion. simpl.
  split; simpl; auto.
  - now rewrite replace_row_id.
  - intros w Hw. apply list_elem_of_fmap in Hw as [r [-> Hr]].
    unfold replace_row. destruct (decide _); simpl; auto.
Qed.

Lemma update_tool_version_status_db_ok (tool_id version_id : string)
    (status_update : StatusUpdate.t) (now : datetime) (d : Database) :
  db_ok d ->
  db_ok (snd (update_tool_version_status tool_id version_id status_update now d)).
Proof.
  intros Hok. unfold update_tool_version_status, query_ToolVersion, bind.
  destruct (version_lookup d tool_id version_id Hok)
    as [[E _]|[v (E & (Hv & _) & _)]]; rewrite E; [exact Hok|].
  exact (update_ToolVersion_db_ok v (StatusUpdate.status status_update) now d Hok Hv).
Qed.

(** The constraints hold in every store the handlers can produce. *)
Lemma reachable_db_ok (d : Database) : reachable d -> db_ok d.
Proof.
  induction 1 as [|c d _ IH]; [exact db_ok_empty|].
  destruct c; simpl.
  - now apply create_tool_db_ok.
  - now apply create_tool_version_db_ok.
  - now apply update_tool_version_status_db_ok.
Qed.

(** C4: [updateVersionStatus] overwrites the status of an existing version
    with any of the four values, whatever the status was before (so
    retired to active goes through), sets [updated_at] to the current time,
    and a read of the version afterwards returns the new status; every other
    row is untouched.  It fails with NotFound exactly when no version with
    that id exists under that tool, and then writes nothing. *)
Theorem update_tool_version_status_spec (d : Database) (tool_id version_id : string)
    (status_update : StatusUpdate.t) (now : datetime) :
  db_ok d ->
  (forall v, version_under d tool_id version_id v ->
     let v' := ToolVersion.set_status v (StatusUpdate.status status_update) now in
     exists d',
       update_tool_version_status tool_id version_id status_update now d
         = (Return v', d') /\
       ToolVersion.status v' = StatusUpdate.status status_update /\
       ToolVersion.updated_at v' = now /\
       get_tool_version tool_id version_id d' = (Return v', d') /\
       tools d' = tools d /\
       forall w, w ∈ tool_versions d -> ToolVersion.id w <> version_id ->
                 w ∈ tool_versions d') /\
  ((forall v, ~ version_under d tool_id version_id v) <->
   fst (update_tool_version_status tool_id version_id status_update now d)
     = Raise (NotFound "Tool version not found")) /\
  ((forall v, ~ version_under d tool_id version_id v) ->
   snd (update_tool_version_status tool_id version_id status_update now d) = d).
Proof.
  intros Hok.
  assert (Hrun : forall v, version_under d tool_id version_id v ->
            update_tool_version_status tool_id version_id status_update now d
            = (Return (ToolVersion.set_status v (StatusUpdate.status status_update) now),
               snd (update_ToolVersion
                      (ToolVersion.set_status v (StatusUpdate.status status_update) now) d))).
  { intros v Hv. unfold update_tool_version_status, query_ToolVersion, bind.
    destruct (version_lookup d tool_id version_id Hok)
      as [[_ Hno]|[v0 (E & _ & Huniq)]]; [exfalso; exact (Hno v Hv)|].
    rewrite E. now rewrite (Huniq v Hv). }
  split; [|split].
  - intros v Hv v'. pose proof Hv as (Hin & Ht & Hi).
    eexists. split; [apply (Hrun v Hv)|]. fold v'.
    split; [reflexivity|]. split; [reflexivity|].
    pose proof (update_ToolVersion_db_ok v (StatusUpdate.status status_update) now
                  d Hok Hin) as Hok'. fold v' in Hok'.
    set (d' := snd (update_ToolVersion v' d)) in *.
    assert (Hv' : version_under d' tool_id version_id v').
    { split; [|now split]. unfold d', update_ToolVersion. simpl.
      apply list_elem_of_fmap. exists v. split; [|exact Hin].
      unfold replace_row. now rewrite decide_True. }
    split; [|split].
    + unfold get_tool_version, query_ToolVersion, bind.
      destruct (version_lookup d' tool_id version_id Hok')
        as [[_ Hno]|[v0 (E & _ & Huniq)]]; [exfalso; exact (Hno v' Hv')|].
      rewrite E. now rewrite (Huniq v' Hv').
    + reflexivity.
    + intros w Hw Hne. unfold d', update_ToolVersion. simpl.
      apply list_elem_of_fmap. exists w. split; [|exact Hw].
      unfold replace_row. rewrite decide_False; [reflexivity|]. simpl. congruence.
  - split.
    + intros Hno. unfold update_tool_version_status, query_ToolVersion, bind.
      destruct (version_lookup d tool_id version_id Hok)
        as [[E _]|[v0 (_ & Hv0 & _)]]; [|exfalso; exact (Hno v0 Hv0)].
      now rewrite E.
    + intros Hfail v Hv. rewrite (Hrun v Hv) in Hfail. discriminate.
  - intros Hno. unfold update_tool_version_status, query_ToolVersion, bind.
    destruct (version_lookup d tool_id version_id Hok)
      as [[E _]|[v0 (_ & Hv0 & _)]]; [|exfalso; exact (Hno v0 Hv0)].
    now rewrite E.
Qed.

(** C10: for a [toolId] that names no tool, [listVersions] succeeds with the
    empty sequence, whereas [createVersion] looks the tool up first and
    fails with NotFound. *)
Theorem list_tool_versions_unknown_tool (d : Database) (tool_id : string)
    (status : option ToolStatus) (payload : ToolVersionCreate.t) (gen : Generated) :
  db_ok d ->
  tool_id ∉ Tool.id <$> tools d ->
  list_tool_versions tool_id status d = (Return [], d) /\
  create_tool_version tool_id payload gen d = (Raise (NotFound "Tool not found"), d).
Proof.
  intros Hok Hno. split.
  - unfold list_tool_versions, query_ToolVersion, bind, ret.
    assert (E : filter (fun v => ToolVersion.tool_id v = tool_id) (tool_versions d) = []).
    { apply elem_of_nil_inv. intros v Hv.
      apply list_elem_of_filter in Hv as [Ht Hv].
      apply Hno. rewrite <- Ht. now apply (tool_versions_fk d Hok). }
    rewrite E. do 2 f_equal.
    apply Permutation_nil_r.
    destruct status; [rewrite filter_nil|]; apply order_by_desc_perm.
  - unfold create_tool_version, query_Tool, bind.
    destruct (tool_lookup_by_id d tool_id Hok) as [[E _]|[t (_ & Ht & Hid)]].
    + now rewrite E.
    + exfalso. apply Hno. rewrite <- Hid. now apply list_elem_of_fmap_2.
Qed.

End Versions.

(* ===================================================================== *)
(** * Creation of versions                                                *)
(* ===================================================================== *)

Section Creation.
Import py models schemas db registry spec.
Context {engine : QueryEngine} {loader : RelationshipLoader}.

Lemma create_tool_version_Return (tool_id : string) (payload : ToolVersionCreate.t)
    (gen : Generated) (d d' : Database) (v : ToolVersion.t) :
  create_tool_version tool_id payload gen d = (Return v, d') ->
  ToolVersion.status v = ToolVersionCreate.status payload /\
  tools d' = tools d /\
  tool_versions d' = tool_versions d ++ [v].
Proof.
  unfold create_tool_version, query_Tool, bind, one_or_none, add_ToolVersion, ret, raise.
  destruct (filter _ (tools d)) as [|t [|t' rest]]; try discriminate.
  destruct (bool_decide _); try discriminate.
  intros [= <- <-]. simpl. auto.
Qed.

(** C8, as the code has it: a successful [createVersion] stores the version
    with the status of the request, which is [draft] when the request leaves
    the status out.  No other operation than the status update changes the
    status of a stored version: creating a tool or a version keeps every
    stored version row as it is, and the reading operations write nothing. *)
Theorem create_tool_version_status (d d' : Database) (tool_id : string)
    (body : ToolVersionBody.t) (gen : Generated) (v : ToolVersion.t) :
  create_tool_version tool_id (ToolVersionCreate.validate body) gen d
    = (Return v, d') ->
  ToolVersion.status v = default draft (ToolVersionBody.status body) /\
  (ToolVersionBody.status body = None -> ToolVersion.status v = draft) /\
  tools d' = tools d /\
  tool_versions d' = tool_versions d ++ [v] /\
  (forall tool g, tool_versions (snd (create_tool tool g d)) = tool_versions d) /\
  (forall id payload g,
     snd (create_tool_version id payload g d) = d \/
     exists w, tool_versions (snd (create_tool_version id payload g d))
               = tool_versions d ++ [w]) /\
  (forall id, snd (get_tool id d) = d) /\
  (forall id status, snd (list_tool_versions id status d) = d) /\
  (forall id vid, snd (get_tool_version id vid d) = d) /\
  (forall slug, snd (resolve_tool slug d) = d).
Proof.
  intros Hrun. apply create_tool_version_Return in Hrun as (Hs & Ht & Hv).
  simpl in Hs. split; [exact Hs|]. split; [intros E; now rewrite E in Hs|].
  split; [exact Ht|]. split; [exact Hv|].
  split; [|split; [|split; [|split; [|split]]]].
  - intros tool g.
    unfold create_tool, query_Tool, bind, one_or_none, add_Tool, ret, raise.
    destruct (filter _ (tools d)) as [|t [|t' rest]]; try reflexivity.
    destruct (_ || _); reflexivity.
  - intros id payload g.
    unfold create_tool_version, query_Tool, bind, one_or_none, add_ToolVersion,
      ret, raise.
    destruct (filter _ (tools d)) as [|t [|t' rest]]; auto.
    destruct (bool_decide _); simpl; eauto.
  - intros id.
    unfold get_tool, query_Tool, query_ToolVersion, bind, one_or_none, ret, raise.
    destruct (filter _ (tools d)) as [|t [|t' rest]]; reflexivity.
  - reflexivity.
  - intros id vid.
    unfold get_tool_version, query_ToolVersion, bind, one_or_none, ret, raise.
    destruct (filter _ (tool_versions d)) as [|t [|t' rest]]; reflexivity.
  - intros slug.
    unfold resolve_tool, query_Tool, query_ToolVersion, bind, one_or_none, ret, raise.
    destruct (filter _ (tools d)) as [|t [|t' rest]]; simpl; try reflexivity.
    destruct (first _); reflexivity.
Qed.

End Creation.

(* ===================================================================== *)
(** * The gateway                                                         *)
(* ===================================================================== *)

Section GatewayRuns.
Import py httpx gateway spec.
Context {env : Environment}.

Lemma send_run (q : Request) (w : World) :
  send q w =
  (match fst (exchange q (net w)) with
   | Responded r => Return r
   | TransportFailure cause => Raise (RequestError cause)
   | OtherFailure cause => Raise (ClientError cause)
   end,
   mkWorld (snd (exchange q (net w))) (sent w ++ [(q, fst (exchange q (net w)))])).
Proof.
  unfold send. destruct (exchange q (net w)) as [[r|c|c] n]; reflexivity.
Qed.

Lemma dict_get_JDict {S : Type} (fields : list (string * JSON)) (key : string)
    (dflt : JSON) (s : S) :
  dict_get (JDict fields) key dflt s = (Return (default dflt (assoc key fields)), s).
Proof. unfold dict_get. destruct (assoc key fields); reflexivity. Qed.

Ltac early_exit H :=
  injection H as <- <-; left; eexists _, _; split; reflexivity.

(** Every run of [call_tool] has one of two shapes.  Either it ends in an
    exception after the exchange with the registry alone, or it makes one
    more exchange, the dispatch, and what it returns is fixed by the answer
    to that exchange. *)
Lemma call_tool_cases (req : ToolCallRequest) (w w' : World) (out : Outcome JSON) :
  call_tool req w = (out, w') ->
  (exists a1 e, out = Raise e /\ sent w' = sent w ++ [(resolve_request req, a1)]) \/
  (exists r q2 a2,
     sent w' = sent w ++ [(resolve_request req, Responded r); (q2, a2)] /\
     match a2 with
     | Responded resp =>
         match result_of resp with
         | Some result =>
             exists tool version,
               out = Return (JDict [("tool", tool);
                                    ("version", version);
                                    ("tool_status_code", JInt (status_code resp));
                                    ("result", result)])
         | None => out = Raise RecursionError
         end
     | TransportFailure cause =>
         out = Raise (HTTPException 502 ("Error calling tool endpoint: " +:+ cause))
     | OtherFailure cause => out = Raise (ClientError cause)
     end).
Proof.
  intros Hrun. unfold call_tool, bind, get in Hrun. rewrite send_run in Hrun.
  fold (resolve_request req) in Hrun.
  destruct (exchange (resolve_request req) (net w)) as [a1 n1]. simpl in Hrun.
  destruct a1 as [r|c|c]; simpl in Hrun; try early_exit Hrun.
  destruct (status_code r =? 200); simpl in Hrun; try early_exit Hrun.
  unfold Response_json at 1 in Hrun.
  destruct (json_loads (text r)) as [resolved| |]; simpl in Hrun; try early_exit Hrun.
  destruct resolved as [| | | | | |fields]; try (simpl in Hrun; early_exit Hrun).
  rewrite dict_get_JDict in Hrun.
  set (version := py_or _ empty_dict) in Hrun. clearbody version.
  destruct version as [| | | | | |vfields]; try (simpl in Hrun; early_exit Hrun).
  rewrite dict_get_JDict in Hrun. cbv beta iota in Hrun.
  set (endpoint_url := default JNull (assoc "endpoint_url" vfields)) in Hrun.
  clearbody endpoint_url.
  rewrite dict_get_JDict in Hrun. cbv beta iota in Hrun.
  set (method := py_or _ (JStr "POST")) in Hrun. clearbody method.
  destruct method as [| | | |m| |]; try (simpl in Hrun; early_exit Hrun).
  unfold str_upper, ret in Hrun. cbv beta iota in Hrun.
  rewrite dict_get_JDict in Hrun. cbv beta iota in Hrun.
  set (protocol := default (JStr "http") _) in Hrun. clearbody protocol.
  destruct (truthy endpoint_url); try (simpl in Hrun; early_exit Hrun).
  unfold negb, ret in Hrun. cbv beta iota in Hrun.
  destruct endpoint_url as [| | | |u| |]; try (simpl in Hrun; early_exit Hrun).
  unfold target_url in Hrun.
  set (prefixed := format protocol +:+ "://" +:+ u) in Hrun.
  assert (Htarget : exists t,
            (if negb (startswith u "http") then ret prefixed else ret u)
              (mkWorld n1 (sent w ++ [(resolve_request req, Responded r)]))
            = (Return t, mkWorld n1 (sent w ++ [(resolve_request req, Responded r)]))).
  { destruct (negb _); eexists; reflexivity. }
  destruct Htarget as [t Ht]. rewrite Ht in Hrun. cbv beta iota in Hrun. clear Ht.
  unfold try_except, post in Hrun.
  destruct (String.eqb (upper m) "GET");
    [|destruct (String.eqb (upper m) "POST");
      [|simpl in Hrun; early_exit Hrun]].
  all: rewrite send_run in Hrun; cbn [net sent] in Hrun;
    destruct (exchange _ n1) as [a2 n2]; simpl in Hrun;
    right; destruct a2 as [resp|cause|cause];
    [unfold Response_json in Hrun;
     destruct (json_loads (text resp)) as [decoded| |] eqn:Hbody|..];
    simpl in Hrun;
    try (destruct (assoc "tool" fields); simpl in Hrun);
    injection Hrun as <- <-; eexists _, _, _;
    (split; [simpl; rewrite <- app_assoc; reflexivity|]);
    cbv beta iota; unfold result_of; try rewrite Hbody; eauto.
Qed.

(** What [call_tool] makes of an answered dispatch, of whatever status
    code: nothing is sent after it, and the body decides the outcome.  A
    body that decodes is passed on as [result], a body that is not JSON is
    wrapped as [{"raw": <body text>}], and on a body nested too deep for the
    decoder the [RecursionError] of [tool_resp.json()] escapes the
    [except ValueError] and ends the handler. *)
Lemma call_tool_answered_dispatch (req : ToolCallRequest) (w w' : World)
    (out : Outcome JSON) (q1 q2 : Request) (a1 : Answer) (resp : Response)
    (rest : list (Request * Answer)) :
  call_tool req w = (out, w') ->
  sent w' = sent w ++ (q1, a1) :: (q2, Responded resp) :: rest ->
  rest = [] /\
  match json_loads (text resp) with
  | Decoded v =>
      exists tool version,
        out = Return (JDict [("tool", tool);
                             ("version", version);
                             ("tool_status_code", JInt (status_code resp));
                             ("result", v)])
  | NotJSON =>
      exists tool version,
        out = Return (JDict [("tool", tool);
                             ("version", version);
                             ("tool_status_code", JInt (status_code resp));
                             ("result", JDict [("raw", JStr (text resp))])])
  | TooDeep => out = Raise RecursionError
  end.
Proof.
  intros Hrun Hlog.
  destruct (call_tool_cases req w w' out Hrun) as [(a & e & _ & Hs)|(r & q & a & Hs & Hout)];
    rewrite Hs in Hlog; apply app_inv_head in Hlog; [discriminate|].
  injection Hlog as _ _ -> -> <-. split; [reflexivity|].
  unfold result_of in Hout. destruct (json_loads (text resp)); exact Hout.
Qed.

(** C7: whenever the dispatch of a run fails at the transport level,
    [callTool] fails with a 502 whose detail carries the cause, and the run
    ends there: the log shows the exchange with the registry and the one
    failed dispatch, and no second attempt. *)
Theorem call_tool_transport_failure (req : ToolCallRequest) (w w' : World)
    (out : Outcome JSON) (q1 q2 : Request) (a1 : Answer) (cause : string)
    (rest : list (Request * Answer)) :
  call_tool req w = (out, w') ->
  sent w' = sent w ++ (q1, a1) :: (q2, TransportFailure cause) :: rest ->
  out = Raise (BadGateway ("Error calling tool endpoint: " +:+ cause)) /\
  q1 = resolve_request req /\
  rest = [].
Proof.
  intros Hrun Hlog.
  destruct (call_tool_cases req w w' out Hrun) as [(a & e & _ & Hs)|(r & q & a & Hs & Hout)];
    rewrite Hs in Hlog; apply app_inv_head in Hlog; [discriminate|].
  injection Hlog as -> _ -> -> <-. auto.
Qed.

End GatewayRuns.

Section GatewayDispatch.
Import py httpx gateway spec.
Context {env : Environment}.

Lemma truthy_JStr (s : string) : s <> "" -> truthy (JStr s) = true.
Proof. intros Hs. simpl. now apply negb_true_iff, String.eqb_neq. Qed.

Lemma py_or_method (version : list (string * JSON)) (m : string) :
  effective_method version = Some m ->
  exists s, py_or (default JNull (assoc "endpoint_method" version)) (JStr "POST")
            = JStr s /\ upper s = m.
Proof.
  unfold effective_method.
  destruct (assoc "endpoint_method" version) as [[| | | |s| |]|]; simpl;
    try discriminate; intros [= <-]; try (now exists "POST").
  unfold py_or. simpl. destruct (String.eqb s ""); simpl; eauto.
Qed.

Lemma call_tool_dispatch (w : World) (req : ToolCallRequest) (r : Response)
    (version : list (string * JSON)) (url m : string) :
  resolved_version w req r version ->
  assoc "endpoint_url" version = Some (JStr url) ->
  url <> "" ->
  effective_method version = Some m ->
  let target :=
    if startswith url "http" then url
    else format (default (JStr "http") (assoc "endpoint_protocol" version))
         +:+ "://" +:+ url in
  let log1 := sent w ++ [(resolve_request req, Responded r)] in
  exists out w',
    call_tool req w = (out, w') /\
    if String.eqb m "GET" then
      exists a, sent w' = log1 ++ [(mkRequest "GET" target (Some (input req)) None, a)]
    else if String.eqb m "POST" then
      exists a, sent w' = log1 ++ [(mkRequest "POST" target None (Some (input req)), a)]
    else
      out = Raise (HTTPException 500 ("Unsupported endpoint_method: " +:+ m)) /\
      sent w' = log1.
Proof.
  intros (Hex & H200 & resolved & Hjson & Hversion) Hurl Hne Hm target log1.
  destruct (py_or_method version m Hm) as (s & Hs & Hupper).
  assert (Hv : py_or (JDict version) empty_dict = JDict version).
  { destruct version; [discriminate Hurl|reflexivity]. }
  unfold call_tool, bind, get. rewrite send_run. fold (resolve_request req).
  rewrite Hex. rewrite H200. cbn [Z.eqb Pos.eqb negb]. unfold ret at 1. cbv beta iota.
  unfold Response_json at 1. rewrite Hjson. unfold ret at 1. cbv beta iota.
  rewrite dict_get_JDict. cbv beta iota. rewrite Hversion. cbn [default from_option id]. rewrite Hv.
  rewrite dict_get_JDict. cbv beta iota. rewrite Hurl. cbn [default from_option id].
  rewrite dict_get_JDict. cbv beta iota. rewrite Hs.
  unfold str_upper, ret at 1. cbv beta iota. rewrite Hupper.
  rewrite dict_get_JDict. cbv beta iota.
  rewrite (truthy_JStr url Hne). cbn [negb]. unfold ret at 1. cbv beta iota.
  unfold target_url.
  assert (Ht : forall w0 : World,
            (if negb (startswith url "http")
             then ret (format (default (JStr "http") (assoc "endpoint_protocol" version))
                       +:+ "://" +:+ url)
             else ret url) w0 = (Return target, w0)).
  { intros w0. unfold target. destruct (startswith url "http"); reflexivity. }
  rewrite Ht. cbv beta iota. clear Ht.
  unfold try_except, post. clear Hex.
  set (n1 := snd (exchange (resolve_request req) (net w))). clearbody n1.
  destruct (String.eqb m "GET"); [|destruct (String.eqb m "POST")].
  3:{ unfold raise. cbv beta iota. eexists _, _. split; [reflexivity|].
      split; reflexivity. }
  all: rewrite send_run; cbn [net sent]; fold log1;
    destruct (exchange _ n1) as [a2 n2]; cbn [fst snd];
    destruct a2 as [resp|cause|cause]; cbv beta iota;
    [unfold Response_json; destruct (json_loads (text resp)); unfold ret, raise;
     cbv beta iota|..];
    try (rewrite dict_get_JDict; cbv beta iota; unfold ret);
    unfold raise; eexists _, _; (split; [reflexivity|]); cbn [sent]; eauto.
Qed.

(** C5, as the code has it: for a resolved version with a non-empty
    [endpoint_url], the gateway dispatches with [endpoint_method] put in
    upper case by [str.upper()] (the Unicode case mapping, not only that of
    the ASCII letters), taking POST when the field is missing, null or
    empty.  When the upper-cased method is GET the caller's input is sent as
    query parameters, when it is POST as the JSON body, and with any other
    upper-cased method [callTool] fails with the unsupported-method error
    after the exchange with the registry alone. *)
Theorem call_tool_dispatch_by_method (w : World) (req : ToolCallRequest)
    (r : Response) (version : list (string * JSON)) (url m : string) :
  resolved_version w req r version ->
  assoc "endpoint_url" version = Some (JStr url) ->
  url <> "" ->
  effective_method version = Some m ->
  let '(out, w') := call_tool req w in
  ((assoc "endpoint_method" version = None \/
    assoc "endpoint_method" version = Some JNull) -> m = "POST") /\
  (m = "GET" ->
   exists target a,
     sent w' = sent w ++ [(resolve_request req, Responded r);
                          (mkRequest "GET" target (Some (input req)) None, a)]) /\
  (m = "POST" ->
   exists target a,
     sent w' = sent w ++ [(resolve_request req, Responded r);
                          (mkRequest "POST" target None (Some (input req)), a)]) /\
  (m <> "GET" -> m <> "POST" ->
   out = Raise (BadConfig ("Unsupported endpoint_method: " +:+ m)) /\
   sent w' = sent w ++ [(resolve_request req, Responded r)]).
Proof.
  intros Hres Hurl Hne Hm.
  destruct (call_tool_dispatch w req r version url m Hres Hurl Hne Hm)
    as (out & w' & -> & Hshape).
  split; [|split; [|split]].
  - unfold effective_method in Hm. intros [E|E]; rewrite E in Hm; congruence.
  - intros ->. simpl in Hshape. destruct Hshape as [a Ha].
    eexists _, a. rewrite Ha, <- app_assoc. reflexivity.
  - intros ->. simpl in Hshape. destruct Hshape as [a Ha].
    eexists _, a. rewrite Ha, <- app_assoc. reflexivity.
  - intros HG HP.
    apply String.eqb_neq in HG, HP. rewrite HG, HP in Hshape. exact Hshape.
Qed.

End GatewayDispatch.

(* ===================================================================== *)
(** * Runs of the registry on the sample store                            *)
(* ===================================================================== *)

Section RegistryRuns.
Import py models schemas db registry spec samples engines.

Ltac decide_by_computation := apply (bool_decide_unpack _); vm_compute; exact I.
Ltac in_list := first [apply list_elem_of_here | apply list_elem_of_further; in_list].

Lemma store_db_ok : db_ok store.
Proof.
  split; simpl.
  - decide_by_computation.
  - decide_by_computation.
  - decide_by_computation.
  - apply Forall_forall. decide_by_computation.
Defined.

Lemma resolve_tool_spec_witness :
  db_ok store /\
  has_slug store "weather-basic" weather /\
  (exists v, active_version_of store weather v) /\
  exists v,
    resolve_tool "weather-basic" store = (Return (Resolved.mk weather v), store) /\
    active_version_of store weather v /\
    forall w, active_version_of store weather w ->
              ToolVersion.created_at w <= ToolVersion.created_at v.
Proof.
  assert (Hslug : has_slug store "weather-basic" weather).
  { split; [in_list|reflexivity]. }
  assert (Hactive : exists v, active_version_of store weather v).
  { exists (weather_version "v-weather-1" active 3000).
    split; [in_list|split; reflexivity]. }
  split; [exact store_db_ok|]. split; [exact Hslug|]. split; [exact Hactive|].
  exact (proj2 (proj2 (resolve_tool_spec store "weather-basic" store_db_ok))
           weather Hslug Hactive).
Defined.

Lemma store_with_tie_db_ok : db_ok store_with_tie.
Proof.
  split; simpl.
  - decide_by_computation.
  - decide_by_computation.
  - decide_by_computation.
  - apply Forall_forall. decide_by_computation.
Defined.

(** Which of two active versions created at the same instant [resolve]
    returns is the engine's affair: the query orders by [created_at] alone,
    and on the same store two engines that both honour that ORDER BY return
    different versions. *)
Lemma resolve_tool_tie_left_to_engine :
  fst (@resolve_tool merge_sort_engine "weather-basic" store_with_tie)
  = Return (Resolved.mk weather (weather_version "v-weather-3" active 4000)) /\
  fst (@resolve_tool insertion_sort_engine "weather-basic" store_with_tie)
  = Return (Resolved.mk weather (weather_version "v-weather-2" active 4000)).
Proof. split; vm_compute; reflexivity. Qed.

Lemma create_tool_same_slug_twice_witness :
  db_ok store /\
  ("t-air" ∉ Tool.id <$> tools store) /\
  let '(first_call, d1) :=
    create_tool (ToolCreate.mk "air-quality" "Air quality" None)
                (mkGenerated "t-air" 7000 7000) store in
  let '(second_call, d2) :=
    create_tool (ToolCreate.mk "air-quality" "Air quality, again" None)
                (mkGenerated "t-air-2" 8000 8000) d1 in
  second_call = Raise (Conflict "Tool with this slug already exists") /\
  d2 = d1 /\
  exists t, filter (fun r => Tool.slug r = "air-quality") (tools d2) = [t].
Proof.
  assert (Hfresh : "t-air" ∉ Tool.id <$> tools store) by decide_by_computation.
  split; [exact store_db_ok|]. split; [exact Hfresh|].
  exact (create_tool_same_slug_twice store
           (ToolCreate.mk "air-quality" "Air quality" None)
           (ToolCreate.mk "air-quality" "Air quality, again" None)
           (mkGenerated "t-air" 7000 7000) (mkGenerated "t-air-2" 8000 8000)
           store_db_ok eq_refl Hfresh).
Defined.

(** The retired weather version is set to active and read back. *)
Lemma update_tool_version_status_spec_witness :
  db_ok store /\
  version_under store "t-weather" "v-weather-3"
    (weather_version "v-weather-3" retired 5000) /\
  exists d',
    update_tool_version_status "t-weather" "v-weather-3" (StatusUpdate.mk active)
                               9000 store
      = (Return (ToolVersion.set_status (weather_version "v-weather-3" retired 5000)
                   active 9000), d') /\
    get_tool_version "t-weather" "v-weather-3" d'
      = (Return (ToolVersion.set_status (weather_version "v-weather-3" retired 5000)
                   active 9000), d').
Proof.
  assert (Hv : version_under store "t-weather" "v-weather-3"
                 (weather_version "v-weather-3" retired 5000)).
  { split; [in_list|split; reflexivity]. }
  split; [exact store_db_ok|]. split; [exact Hv|].
  destruct (proj1 (update_tool_version_status_spec store "t-weather" "v-weather-3"
                     (StatusUpdate.mk active) 9000 store_db_ok) _ Hv)
    as (d' & Hrun & _ & _ & Hread & _).
  exists d'. split; [exact Hrun|exact Hread].
Defined.

Lemma create_tool_version_status_witness :
  exists v d',
    create_tool_version "t-weather" (ToolVersionCreate.validate plain_body)
                        generated store = (Return v, d') /\
    ToolVersion.status v = draft /\
    tool_versions d' = tool_versions store ++ [v].
Proof.
  eexists _, _.
  assert (Hrun : create_tool_version "t-weather"
                   (ToolVersionCreate.validate plain_body) generated store
                 = (Return _, _)) by (vm_compute; reflexivity).
  split; [exact Hrun|].
  destruct (create_tool_version_status _ _ _ _ _ _ Hrun) as (_ & Hdraft & _ & Hrows & _).
  split; [exact (Hdraft eq_refl)|exact Hrows].
Defined.

(** C8 as stated does not hold: the request of the local test runner yields
    a version that is [active] from the start. *)
Lemma create_tool_version_active_at_creation :
  exists v d',
    create_tool_version "t-weather" (ToolVersionCreate.validate active_body)
                        generated store = (Return v, d') /\
    ToolVersion.status v = active /\
    ToolVersion.status v <> draft.
Proof.
  eexists _, _. split; [vm_compute; reflexivity|]. split; [reflexivity|discriminate].
Qed.

Lemma list_tool_versions_unknown_tool_witness :
  db_ok store /\
  ("t-missing" ∉ Tool.id <$> tools store) /\
  list_tool_versions "t-missing" None store = (Return [], store) /\
  create_tool_version "t-missing" (ToolVersionCreate.validate plain_body)
                      generated store
    = (Raise (NotFound "Tool not found"), store).
Proof.
  assert (Hno : "t-missing" ∉ Tool.id <$> tools store) by decide_by_computation.
  split; [exact store_db_ok|]. split; [exact Hno|].
  exact (list_tool_versions_unknown_tool store "t-missing" None
           (ToolVersionCreate.validate plain_body) generated store_db_ok Hno).
Defined.

End RegistryRuns.

(* ===================================================================== *)
(** * Runs of the gateway against a scripted network                      *)
(* ===================================================================== *)

Section GatewayScripts.
Import py httpx gateway spec samples.

(** C2 does not hold of the code at a downstream response whose body is
    JSON nested a hundred thousand deep (a list within a list, and so on):
    the dispatch completed with status 200, yet the handler does not
    return.  [tool_resp.json()] raises [RecursionError], which
    [except ValueError] does not catch, so the call ends in that error
    instead of a reply with [tool_status_code] and a [result]. *)
Lemma call_tool_deeply_nested_body :
  fst (run [registry_says "resolved: GET http://localhost:9005/weather";
            Responded (mkResponse 200 deeply_nested)])
  = Raise RecursionError /\
  fst <$> sent (snd (run [registry_says "resolved: GET http://localhost:9005/weather";
                          Responded (mkResponse 200 deeply_nested)]))
  = [mkRequest "GET" "http://localhost:8001/resolve"
               (Some [("slug", JStr "weather-basic")]) None;
     mkRequest "GET" "http://localhost:9005/weather"
               (Some [("city", JStr "Paris")]) None].
Proof. split; vm_compute; reflexivity. Qed.

(** The same run with a body that is not JSON at all, and a status of 500:
    the call succeeds and the text comes back under [raw]. *)
Lemma call_tool_text_body :
  fst (run [registry_says "resolved: GET http://localhost:9005/weather";
            Responded (mkResponse 500 "upstream exploded")])
  = Return (JDict [("tool", JDict [("id", JStr "t-weather");
                                   ("slug", JStr "weather-basic")]);
                   ("version", JDict weather_version_fields);
                   ("tool_status_code", JInt 500);
                   ("result", JDict [("raw", JStr "upstream exploded")])]).
Proof. vm_compute. reflexivity. Qed.

Lemma call_tool_transport_failure_witness :
  fst (run [registry_says "resolved: GET http://localhost:9005/weather";
            TransportFailure "connection refused"])
  = Raise (BadGateway "Error calling tool endpoint: connection refused") /\
  length (sent (snd (run [registry_says "resolved: GET http://localhost:9005/weather";
                          TransportFailure "connection refused"]))) = 2%nat.
Proof.
  destruct (call_tool_transport_failure (env := scripted) paris
              (world [registry_says "resolved: GET http://localhost:9005/weather";
                      TransportFailure "connection refused"])
              _ _ _ _ _ "connection refused" []
              ltac:(vm_compute; reflexivity) ltac:(vm_compute; reflexivity))
    as (Hout & _ & _).
  split; [exact Hout|reflexivity].
Defined.

Lemma call_tool_dispatch_by_method_witness :
  resolved_version (env := scripted) weather_world paris
    (mkResponse 200 "resolved: GET http://localhost:9005/weather")
    weather_version_fields /\
  effective_method (env := scripted) weather_version_fields = Some "GET" /\
  exists target a,
    sent (snd (@call_tool scripted paris weather_world))
    = [(@resolve_request scripted paris,
        Responded (mkResponse 200 "resolved: GET http://localhost:9005/weather"));
       (mkRequest "GET" target (Some [("city", JStr "Paris")]) None, a)].
Proof.
  assert (Hres : resolved_version (env := scripted) weather_world paris
                   (mkResponse 200 "resolved: GET http://localhost:9005/weather")
                   weather_version_fields).
  { split; [reflexivity|]. split; [reflexivity|].
    eexists. split; reflexivity. }
  split; [exact Hres|]. split; [reflexivity|].
  pose proof (call_tool_dispatch_by_method (env := scripted) weather_world paris _
                weather_version_fields
                "http://localhost:9005/weather" "GET" Hres eq_refl
                ltac:(discriminate) eq_refl) as H.
  destruct (@call_tool scripted paris weather_world) as [out w'].
  destruct H as (_ & HGET & _). exact (HGET eq_refl).
Defined.

(** C5 as stated does not hold: [get] is a method other than [GET] and
    [POST], yet the call succeeds and a GET is dispatched. *)
Lemma call_tool_lowercase_method_dispatched :
  assoc "endpoint_method"
        (version_fields "http" (JStr "get") (JStr "http://localhost:9005/weather"))
    = Some (JStr "get") /\
  "get" <> "GET" /\
  "get" <> "POST" /\
  run [registry_says "resolved: get http://localhost:9005/weather";
       Responded (mkResponse 200 "weather report")]
  = (Return (JDict [("tool", JDict [("id", JStr "t-weather");
                                    ("slug", JStr "weather-basic")]);
                    ("version",
                     JDict (version_fields "http" (JStr "get")
                              (JStr "http://localhost:9005/weather")));
                    ("tool_status_code", JInt 200);
                    ("result", JDict [("temperatureC", JInt 21);
                                      ("description", JStr "Sunny")])]),
     mkWorld (env := scripted) []
       [(mkRequest "GET" "http://localhost:8001/resolve"
                   (Some [("slug", JStr "weather-basic")]) None,
         registry_says "resolved: get http://localhost:9005/weather");
        (mkRequest "GET" "http://localhost:9005/weather"
                   (Some [("city", JStr "Paris")]) None,
         Responded (mkResponse 200 "weather report"))]).
Proof.
  split; [reflexivity|]. split; [discriminate|]. split; [discriminate|].
  vm_compute. reflexivity.
Qed.

(** The upper case is that of [str.upper()]: the method [poſt], written
    with a long s, is dispatched as a POST. *)
Lemma call_tool_long_s_method_dispatched :
  sent (snd (run [registry_says "resolved: long-s post http://localhost:9005/weather";
                  Responded (mkResponse 200 "weather report")]))
  = [(mkRequest "GET" "http://localhost:8001/resolve"
                (Some [("slug", JStr "weather-basic")]) None,
      registry_says "resolved: long-s post http://localhost:9005/weather");
     (mkRequest "POST" "http://localhost:9005/weather"
                None (Some [("city", JStr "Paris")]),
      Responded (mkResponse 200 "weather report"))].
Proof. vm_compute. reflexivity. Qed.

(** C6 does not hold of the code at the host-relative [endpoint_url]
    [httpd.local:9005/weather] with [endpoint_protocol] [http]: the URL
    carries no scheme prefix, so the target is to be
    [http://httpd.local:9005/weather], yet the code takes the leading
    [http] of the host name for a scheme and dispatches to the URL as it
    stands.  The client refuses a URL without a scheme, and the call ends
    in a 502. *)
Lemma call_tool_host_relative_url_unprefixed :
  carries_scheme_prefix "httpd.local:9005/weather" = false /\
  run [registry_says "resolved: GET httpd.local:9005/weather";
       TransportFailure "Request URL has an unsupported protocol"]
  = (Raise (BadGateway
              "Error calling tool endpoint: Request URL has an unsupported protocol"),
     mkWorld (env := scripted) []
       [(mkRequest "GET" "http://localhost:8001/resolve"
                   (Some [("slug", JStr "weather-basic")]) None,
         registry_says "resolved: GET httpd.local:9005/weather");
        (mkRequest "GET" "httpd.local:9005/weather"
                   (Some [("city", JStr "Paris")]) None,
         TransportFailure "Request URL has an unsupported protocol")]) /\
  "httpd.local:9005/weather" <> "http://httpd.local:9005/weather".
Proof.
  split; [reflexivity|]. split; [vm_compute; reflexivity|discriminate].
Qed.

(** A host-relative URL that does not begin with [http] gets the protocol
    of the version in front. *)
Lemma call_tool_host_relative_url_prefixed :
  sent (snd (@call_tool scripted paris pollen_world))
  = [(mkRequest "GET" "http://localhost:8001/resolve"
                (Some [("slug", JStr "weather-basic")]) None,
      registry_says "resolved: POST localhost:9006/pollen");
     (mkRequest "POST" "https://localhost:9006/pollen"
                None (Some [("city", JStr "Paris")]),
      Responded (mkResponse 200 "weather report"))].
Proof. vm_compute. reflexivity. Qed.

End GatewayScripts.

(* ===================================================================== *)
(** * Listings and lookups of the registry                                *)
(* ===================================================================== *)

Section Listings.
Import py models schemas db registry spec listing_spec tool_listing.
Context {engine : QueryEngine}.

Lemma order_by_desc_newest_first {A : Type} (key : A -> Z) (rows : list A) :
  newest_first key (order_by_desc key rows).
Proof.
  apply Sorted.Sorted_StronglySorted; [intros a b c; lia|].
  apply order_by_desc_sorted.
Qed.

Lemma filter_tool_then_status (tool_id : string) (status : option ToolStatus)
    (rows : list ToolVersion.t) :
  match status with
  | Some s => filter (fun v => ToolVersion.status v = s)
                     (filter (fun v => ToolVersion.tool_id v = tool_id) rows)
  | None => filter (fun v => ToolVersion.tool_id v = tool_id) rows
  end
  = filter (fun v => ToolVersion.tool_id v = tool_id /\ matches_status status v) rows.
Proof.
  destruct status as [s|]; simpl.
  - rewrite list_filter_filter. apply list_filter_iff. intros v. simpl. tauto.
  - apply list_filter_iff. intros v. simpl. tauto.
Qed.

(** X1: [list_tool_versions] never fails and writes nothing.  It returns,
    newest first, exactly the stored versions of the given tool id that
    pass the optional status filter, each as often as it is stored. *)
Theorem list_tool_versions_listing (d : Database) (tool_id : string)
    (status : option ToolStatus) :
  exists rows,
    list_tool_versions tool_id status d = (Return rows, d) /\
    rows ≡ₚ filter (fun v => ToolVersion.tool_id v = tool_id /\
                             matches_status status v) (tool_versions d) /\
    newest_first ToolVersion.created_at rows /\
    forall v, v ∈ rows <->
              v ∈ tool_versions d /\ ToolVersion.tool_id v = tool_id /\
              matches_status status v.
Proof.
  eexists. split; [reflexivity|].
  rewrite (filter_tool_then_status tool_id status (tool_versions d)).
  split; [apply order_by_desc_perm|]. split; [apply order_by_desc_newest_first|].
  intros v. rewrite (order_by_desc_perm _ ToolVersion.created_at).
  rewrite list_elem_of_filter. tauto.
Qed.

(** Two orderings of the same rows by the same key are one and the same
    list when no two of the rows share a key, whichever engine produced
    each. *)
Lemma order_by_desc_unique {A : Type} (first_engine second_engine : QueryEngine)
    (key : A -> Z) (rows : list A) :
  (forall a b, a ∈ rows -> b ∈ rows -> key a = key b -> a = b) ->
  @order_by_desc first_engine A key rows = @order_by_desc second_engine A key rows.
Proof.
  intros Hdistinct.
  assert (Htrans : Transitive (fun a b : A => key b <= key a))
    by (intros a b c; lia).
  apply (Sorted_unique_strong (fun a b : A => key b <= key a)).
  - intros a b Ha Hb Hab Hba.
    rewrite (@order_by_desc_perm first_engine) in Ha.
    rewrite (@order_by_desc_perm second_engine) in Hb.
    apply Hdistinct; [assumption..|lia].
  - apply order_by_desc_sorted.
  - apply order_by_desc_sorted.
  - rewrite (@order_by_desc_perm first_engine), (@order_by_desc_perm second_engine).
    reflexivity.
Qed.

(** X2: when no two active versions of a tool were created at the same
    instant, what [resolve] returns for the slug of the tool is the head of
    the listing of its active versions, that is, the first row of
    [list_tool_versions] with the status filter [active], and NotFound when
    that listing is empty.  The two queries are separate ones: this holds
    whatever engine answers each. *)
Theorem resolve_tool_heads_active_listing (listing : QueryEngine) (d : Database)
    (slug : string) (t : Tool.t) :
  db_ok d ->
  has_slug d slug t ->
  (forall v w, active_version_of d t v -> active_version_of d t w ->
               ToolVersion.created_at v = ToolVersion.created_at w -> v = w) ->
  exists rows,
    @list_tool_versions listing (Tool.id t) (Some active) d = (Return rows, d) /\
    @resolve_tool engine slug d =
    match rows with
    | [] => (Raise (NotFound "No active version for this tool"), d)
    | v :: _ => (Return (Resolved.mk t v), d)
    end.
Proof.
  intros Hok Ht Hdistinct. eexists. split; [reflexivity|].
  rewrite (resolve_tool_found d slug t Hok Ht).
  rewrite (filter_tool_then_status (Tool.id t) (Some active) (tool_versions d)).
  simpl.
  rewrite (order_by_desc_unique engine listing ToolVersion.created_at).
  - unfold first. destruct (order_by_desc _ _); reflexivity.
  - intros v w Hv Hw. apply list_elem_of_filter in Hv as [[Hvt Hvs] Hv].
    apply list_elem_of_filter in Hw as [[Hwt Hws] Hw].
    apply Hdistinct; now repeat split.
Qed.

(** X3: [get_tool_version] returns the stored version with that id when it
    belongs to the given tool, and fails with NotFound otherwise, in
    particular for the id of a version that belongs to another tool.  It
    never writes. *)
Theorem get_tool_version_lookup (d : Database) (tool_id version_id : string) :
  db_ok d ->
  (forall v, version_under d tool_id version_id v ->
             get_tool_version tool_id version_id d = (Return v, d)) /\
  ((forall v, ~ version_under d tool_id version_id v) ->
   get_tool_version tool_id version_id d
     = (Raise (NotFound "Tool version not found"), d)) /\
  (forall v, v ∈ tool_versions d -> ToolVersion.id v = version_id ->
             ToolVersion.tool_id v <> tool_id ->
             get_tool_version tool_id version_id d
               = (Raise (NotFound "Tool version not found"), d)).
Proof.
  intros Hok.
  assert (Hnone : (forall v, ~ version_under d tool_id version_id v) ->
                  get_tool_version tool_id version_id d
                  = (Raise (NotFound "Tool version not found"), d)).
  { intros Hno. unfold get_tool_version, query_ToolVersion, bind.
    destruct (version_lookup d tool_id version_id Hok)
      as [[E _]|[v0 (_ & Hv0 & _)]]; [now rewrite E|exfalso; exact (Hno v0 Hv0)]. }
  split; [|split; [exact Hnone|]].
  - intros v Hv. unfold get_tool_version, query_ToolVersion, bind.
    destruct (version_lookup d tool_id version_id Hok)
      as [[_ Hno]|[v0 (E & _ & Huniq)]]; [exfalso; exact (Hno v Hv)|].
    rewrite E. now rewrite (Huniq v Hv).
  - intros v Hv Hid Hother. apply Hnone. intros w (Hw & Hwt & Hwi).
    assert (w = v); [|congruence].
    pose proof (tool_versions_pk d Hok) as Hpk.
    apply list_elem_of_lookup in Hw as [i Hi], Hv as [j Hj].
    assert (i = j); [|congruence].
    apply (NoDup_lookup _ i j version_id Hpk);
      rewrite list_lookup_fmap; [rewrite Hi|rewrite Hj]; simpl; congruence.
Qed.

End Listings.

(* ===================================================================== *)
(** * Writing to the store and reading back                               *)
(* ===================================================================== *)

Section ReadBack.
Import py models schemas db registry spec listing_spec.
Context {engine : QueryEngine} {loader : RelationshipLoader}.

(** The load of a relationship with no rows is empty. *)
Lemma load_nil {A : Type} : load (@nil A) = [].
Proof. apply Permutation_nil_r. apply load_perm. Qed.

Lemma tools_pk_unique (d : Database) (t1 t2 : Tool.t) :
  db_ok d -> t1 ∈ tools d -> t2 ∈ tools d -> Tool.id t1 = Tool.id t2 -> t1 = t2.
Proof.
  intros Hok H1 H2 Hid. pose proof (tools_pk d Hok) as Hpk.
  apply list_elem_of_lookup in H1 as [i Hi], H2 as [j Hj].
  assert (i = j); [|congruence].
  apply (NoDup_lookup _ i j (Tool.id t1) Hpk);
    rewrite list_lookup_fmap; [rewrite Hi|rewrite Hj]; simpl; congruence.
Qed.

Lemma tool_versions_pk_unique (d : Database) (v1 v2 : ToolVersion.t) :
  db_ok d -> v1 ∈ tool_versions d -> v2 ∈ tool_versions d ->
  ToolVersion.id v1 = ToolVersion.id v2 -> v1 = v2.
Proof.
  intros Hok H1 H2 Hid. pose proof (tool_versions_pk d Hok) as Hpk.
  apply list_elem_of_lookup in H1 as [i Hi], H2 as [j Hj].
  assert (i = j); [|congruence].
  apply (NoDup_lookup _ i j (ToolVersion.id v1) Hpk);
    rewrite list_lookup_fmap; [rewrite Hi|rewrite Hj]; simpl; congruence.
Qed.

Lemma get_tool_found (d : Database) (t : Tool.t) :
  db_ok d -> t ∈ tools d ->
  get_tool (Tool.id t) d
  = (Return (ToolWithVersions.mk t
               (load (filter (fun v => ToolVersion.tool_id v = Tool.id t)
                             (tool_versions d)))),
     d).
Proof.
  intros Hok Ht. unfold get_tool, query_Tool, query_ToolVersion, bind.
  destruct (tool_lookup_by_id d (Tool.id t) Hok) as [[_ Hno]|[t0 (E & Ht0 & Hid)]].
  - exfalso. apply Hno. now apply list_elem_of_fmap_2.
  - rewrite E. now rewrite (tools_pk_unique d t0 t Hok Ht0 Ht Hid).
Qed.

(** No stored version refers to an id that is not a tool id. *)
Lemma no_versions_of_unknown_tool (d : Database) (tool_id : string) :
  db_ok d -> tool_id ∉ Tool.id <$> tools d ->
  filter (fun v => ToolVersion.tool_id v = tool_id) (tool_versions d) = [].
Proof.
  intros Hok Hno. apply elem_of_nil_inv. intros v Hv.
  apply list_elem_of_filter in Hv as [Ht Hv].
  apply Hno. rewrite <- Ht. now apply (tool_versions_fk d Hok).
Qed.

(** X4: a tool created under a new slug is stored with the fields of the
    request and the generated id; reading it back by that id returns it with
    no versions, and resolving its slug fails with NotFound, for want of an
    active version. *)
Theorem create_tool_then_read (d : Database) (tool : ToolCreate.t) (gen : Generated) :
  db_ok d ->
  (forall t, ~ has_slug d (ToolCreate.slug tool) t) ->
  uuid4 gen ∉ Tool.id <$> tools d ->
  exists row d',
    create_tool tool gen d = (Return row, d') /\
    Tool.id row = uuid4 gen /\
    Tool.slug row = ToolCreate.slug tool /\
    Tool.display_name row = ToolCreate.display_name tool /\
    Tool.description row = ToolCreate.description tool /\
    tools d' = tools d ++ [row] /\
    tool_versions d' = tool_versions d /\
    get_tool (uuid4 gen) d' = (Return (ToolWithVersions.mk row []), d') /\
    resolve_tool (ToolCreate.slug tool) d'
      = (Raise (NotFound "No active version for this tool"), d').
Proof.
  intros Hok Hno Hid.
  pose proof (create_tool_db_ok tool gen d Hok) as Hok'.
  rewrite (create_tool_fresh tool gen d Hok Hno Hid) in Hok'. simpl in Hok'.
  eexists _, _. split; [apply (create_tool_fresh tool gen d Hok Hno Hid)|].
  set (row := Tool.mk _ _ _ _ _ _) in *.
  set (d' := mkDatabase _ _) in *.
  assert (Hrow : row ∈ tools d').
  { simpl. apply elem_of_app. right. now apply list_elem_of_singleton. }
  assert (Hnov : filter (fun v => ToolVersion.tool_id v = uuid4 gen) (tool_versions d') = []).
  { simpl. now apply no_versions_of_unknown_tool. }
  repeat (split; [reflexivity|]). split.
  - etransitivity; [exact (get_tool_found d' row Hok' Hrow)|].
    change (Tool.id row) with (uuid4 gen). now rewrite Hnov, load_nil.
  - apply (resolve_tool_no_active d' (ToolCreate.slug tool) row Hok');
      [now split|].
    intros v (Hv & Hvt & _).
    assert (Hin : v ∈ filter (fun v => ToolVersion.tool_id v = uuid4 gen)
                             (tool_versions d'))
      by (apply list_elem_of_filter; auto).
    rewrite Hnov in Hin. now apply elem_of_nil in Hin.
Qed.

Lemma create_tool_version_fresh (d : Database) (tool_id : string)
    (payload : ToolVersionCreate.t) (gen : Generated) (t : Tool.t) :
  db_ok d -> t ∈ tools d -> Tool.id t = tool_id ->
  uuid4 gen ∉ ToolVersion.id <$> tool_versions d ->
  exists v,
    create_tool_version tool_id payload gen d
      = (Return v, mkDatabase (tools d) (tool_versions d ++ [v])) /\
    ToolVersion.id v = uuid4 gen /\
    ToolVersion.tool_id v = tool_id /\
    ToolVersion.version v = ToolVersionCreate.version payload /\
    ToolVersion.status v = ToolVersionCreate.status payload /\
    ToolVersion.endpoint_method v = ToolVersionCreate.endpoint_method payload /\
    ToolVersion.endpoint_url v = ToolVersionCreate.endpoint_url payload /\
    ToolVersion.endpoint_protocol v = ToolVersionCreate.endpoint_protocol payload /\
    ToolVersion.created_at v = utcnow_created_at gen.
Proof.
  intros Hok Ht Hid Hfresh. unfold create_tool_version, query_Tool, bind.
  destruct (tool_lookup_by_id d tool_id Hok) as [[_ Hno]|[t0 (E & Ht0 & Hid0)]].
  { exfalso. apply Hno. rewrite <- Hid. now apply list_elem_of_fmap_2. }
  rewrite E. unfold add_ToolVersion. simpl.
  rewrite (bool_decide_eq_false_2 _ Hfresh). simpl.
  eexists. split; [reflexivity|]. simpl. repeat split; auto.
Qed.

(** X5: a version created under an existing tool, with whatever label, is
    stored with the fields of the request (no check on the label is made);
    it can then be read back by its id under that tool, it shows in the
    listing of the tool, and the versions that [get_tool] returns for the
    tool are those it had before and the new one, in the order in which the
    relationship is loaded. *)
Theorem create_tool_version_then_read (d : Database) (tool_id : string)
    (payload : ToolVersionCreate.t) (gen : Generated) (t : Tool.t) :
  db_ok d ->
  t ∈ tools d ->
  Tool.id t = tool_id ->
  uuid4 gen ∉ ToolVersion.id <$> tool_versions d ->
  exists v d',
    create_tool_version tool_id payload gen d = (Return v, d') /\
    ToolVersion.id v = uuid4 gen /\
    ToolVersion.tool_id v = tool_id /\
    ToolVersion.version v = ToolVersionCreate.version payload /\
    ToolVersion.status v = ToolVersionCreate.status payload /\
    tool_versions d' = tool_versions d ++ [v] /\
    get_tool_version tool_id (uuid4 gen) d' = (Return v, d') /\
    (exists rows, list_tool_versions tool_id None d' = (Return rows, d') /\ v ∈ rows) /\
    (exists versions,
       get_tool tool_id d' = (Return (ToolWithVersions.mk t versions), d') /\
       versions ≡ₚ filter (fun w => ToolVersion.tool_id w = tool_id) (tool_versions d)
                   ++ [v]).
Proof.
  intros Hok Ht Hid Hfresh.
  destruct (create_tool_version_fresh d tool_id payload gen t Hok Ht Hid Hfresh)
    as (v & Hrun & Hvid & Hvt & Hvv & Hvs & _).
  pose proof (create_tool_version_db_ok tool_id payload gen d Hok) as Hok'.
  rewrite Hrun in Hok'. simpl in Hok'.
  exists v, (mkDatabase (tools d) (tool_versions d ++ [v])).
  set (d' := mkDatabase _ _) in *.
  assert (Hv : v ∈ tool_versions d').
  { simpl. apply elem_of_app. right. now apply list_elem_of_singleton. }
  split; [exact Hrun|]. repeat (split; [assumption || reflexivity|]).
  split; [|split].
  - unfold get_tool_version, query_ToolVersion, bind.
    destruct (version_lookup d' tool_id (uuid4 gen) Hok')
      as [[_ Hno]|[v0 (E & _ & Huniq)]].
    + exfalso. apply (Hno v). now repeat split.
    + rewrite E. rewrite (Huniq v); [reflexivity|now repeat split].
  - eexists. split; [reflexivity|].
    rewrite (order_by_desc_perm _ ToolVersion.created_at).
    apply list_elem_of_filter. auto.
  - subst tool_id. eexists. split; [exact (get_tool_found d' t Hok' Ht)|].
    rewrite load_perm. simpl. rewrite filter_app.
    rewrite filter_cons, decide_True by exact Hvt. reflexivity.
Qed.

(** X6: on a store that satisfies the declared constraints no lookup of a
    handler meets several rows: none of the handlers that look a row up
    with [one_or_none] ends in [MultipleResultsFound]. *)
Theorem registry_lookups_meet_one_row (d : Database) :
  db_ok d ->
  (forall tool gen,
     fst (create_tool tool gen d) <> Raise MultipleResultsFound) /\
  (forall tool_id payload gen,
     fst (create_tool_version tool_id payload gen d) <> Raise MultipleResultsFound) /\
  (forall tool_id,
     fst (get_tool tool_id d) <> Raise MultipleResultsFound) /\
  (forall tool_id version_id,
     fst (get_tool_version tool_id version_id d) <> Raise MultipleResultsFound) /\
  (forall tool_id version_id status_update now,
     fst (update_tool_version_status tool_id version_id status_update now d)
     <> Raise MultipleResultsFound) /\
  (forall slug,
     fst (resolve_tool slug d) <> Raise MultipleResultsFound).
Proof.
  intros Hok. split; [|split; [|split; [|split; [|split]]]].
  - intros tool gen. unfold create_tool, query_Tool, bind.
    destruct (resolve_tool_lookup d (ToolCreate.slug tool) Hok)
      as [[E _]|[t (E & _)]]; rewrite E; simpl; [|discriminate].
    unfold add_Tool. simpl. destruct (_ || _); simpl; discriminate.
  - intros tool_id payload gen. unfold create_tool_version, query_Tool, bind.
    destruct (tool_lookup_by_id d tool_id Hok) as [[E _]|[t (E & _)]];
      rewrite E; simpl; [discriminate|].
    unfold add_ToolVersion. simpl. destruct (bool_decide _); simpl; discriminate.
  - intros tool_id. unfold get_tool, query_Tool, query_ToolVersion, bind.
    destruct (tool_lookup_by_id d tool_id Hok) as [[E _]|[t (E & _)]];
      rewrite E; simpl; discriminate.
  - intros tool_id version_id. unfold get_tool_version, query_ToolVersion, bind.
    destruct (version_lookup d tool_id version_id Hok) as [[E _]|[v (E & _)]];
      rewrite E; simpl; discriminate.
  - intros tool_id version_id status_update now.
    unfold update_tool_version_status, query_ToolVersion, bind.
    destruct (version_lookup d tool_id version_id Hok) as [[E _]|[v (E & _)]];
      rewrite E; simpl; discriminate.
  - intros slug. unfold resolve_tool, query_Tool, query_ToolVersion, bind.
    destruct (resolve_tool_lookup d slug Hok) as [[E _]|[t (E & _)]];
      rewrite E; simpl; [discriminate|].
    destruct (first _); simpl; discriminate.
Qed.

End ReadBack.

(* ===================================================================== *)
(** * Status changes and resolution                                       *)
(* ===================================================================== *)

Section Lifecycle.
Import py models schemas db registry spec listing_spec.
Context {engine : QueryEngine}.

Lemma update_tool_version_status_run (d : Database) (tool_id version_id : string)
    (status_update : StatusUpdate.t) (now : datetime) (v : ToolVersion.t) :
  db_ok d ->
  version_under d tool_id version_id v ->
  let v' := ToolVersion.set_status v (StatusUpdate.status status_update) now in
  update_tool_version_status tool_id version_id status_update now d
  = (Return v', mkDatabase (tools d) (replace_row v' <$> tool_versions d)).
Proof.
  intros Hok Hv v'. unfold update_tool_version_status, query_ToolVersion, bind.
  destruct (version_lookup d tool_id version_id Hok)
    as [[_ Hno]|[v0 (E & _ & Huniq)]]; [exfalso; exact (Hno v Hv)|].
  rewrite E. subst v'. now rewrite (Huniq v Hv).
Qed.

(** The rows after the update of [v]: the new row in place of [v], and the
    other rows as they were. *)
Lemma elem_of_replaced (d : Database) (v : ToolVersion.t) (s : ToolStatus)
    (now : datetime) (w : ToolVersion.t) :
  db_ok d -> v ∈ tool_versions d ->
  w ∈ replace_row (ToolVersion.set_status v s now) <$> tool_versions d <->
  w = ToolVersion.set_status v s now \/ (w ∈ tool_versions d /\ w <> v).
Proof.
  intros Hok Hv. rewrite list_elem_of_fmap. split.
  - intros (r & -> & Hr). unfold replace_row.
    destruct (decide _) as [Hid|Hid]; [now left|right].
    split; [exact Hr|]. intros Heq. apply Hid. now rewrite Heq.
  - intros [->|[Hw Hne]].
    + exists v. split; [|exact Hv]. unfold replace_row. now rewrite decide_True.
    + exists w. split; [|exact Hw]. unfold replace_row.
      rewrite decide_False; [reflexivity|].
      simpl. intros Hid. apply Hne.
      now apply (tool_versions_pk_unique d w v Hok Hw Hv).
Qed.

(** X7: after a version of a tool is set to [active], resolving the slug of
    the tool succeeds with an active version at least as new as that one,
    and with that very version when it is newer than every other active
    version of the tool.  ([created_at] is not touched by the update.) *)
Theorem activate_then_resolve (d : Database) (slug version_id : string)
    (t : Tool.t) (v : ToolVersion.t) (now : datetime) :
  db_ok d ->
  has_slug d slug t ->
  version_under d (Tool.id t) version_id v ->
  let v' := ToolVersion.set_status v active now in
  exists d' w,
    update_tool_version_status (Tool.id t) version_id (StatusUpdate.mk active) now d
      = (Return v', d') /\
    resolve_tool slug d' = (Return (Resolved.mk t w), d') /\
    ToolVersion.status w = active /\
    ToolVersion.created_at v <= ToolVersion.created_at w /\
    ((forall u, active_version_of d t u -> u <> v ->
                ToolVersion.created_at u < ToolVersion.created_at v) ->
     w = v').
Proof.
  intros Hok Ht Hv v'. pose proof Hv as (Hin & Hvt & Hvi).
  pose proof (update_tool_version_status_run d (Tool.id t) version_id
                (StatusUpdate.mk active) now v Hok Hv) as Hrun.
  simpl in Hrun. fold v' in Hrun.
  pose proof (update_tool_version_status_db_ok (Tool.id t) version_id
                (StatusUpdate.mk active) now d Hok) as Hok'.
  rewrite Hrun in Hok'. simpl in Hok'.
  set (d' := mkDatabase (tools d) (replace_row v' <$> tool_versions d)) in *.
  assert (Ht' : has_slug d' slug t) by exact Ht.
  assert (Hv' : active_version_of d' t v').
  { split; [|now split]. apply (elem_of_replaced d v active now v' Hok Hin). now left. }
  destruct (resolve_tool_selects d' slug t Hok' Ht' (ex_intro _ v' Hv'))
    as (w & Hres & (Hw & Hwt & Hws) & Hmax).
  exists d', w. split; [exact Hrun|]. split; [exact Hres|]. split; [exact Hws|].
  split; [exact (Hmax v' Hv')|].
  intros Hnewest.
  apply (elem_of_replaced d v active now w Hok Hin) in Hw as [->|[Hw Hne]];
    [reflexivity|exfalso].
  assert (Hlt : ToolVersion.created_at w < ToolVersion.created_at v)
    by (apply Hnewest; [now repeat split|exact Hne]).
  pose proof (Hmax v' Hv') as Hle. simpl in Hle. lia.
Qed.

(** X8: when the only active version of a tool is given another status,
    resolving the slug of the tool fails with NotFound from then on. *)
Theorem deactivate_only_active_then_resolve (d : Database) (slug version_id : string)
    (t : Tool.t) (v : ToolVersion.t) (s : ToolStatus) (now : datetime) :
  db_ok d ->
  has_slug d slug t ->
  version_under d (Tool.id t) version_id v ->
  (forall u, active_version_of d t u -> u = v) ->
  s <> active ->
  exists d',
    update_tool_version_status (Tool.id t) version_id (StatusUpdate.mk s) now d
      = (Return (ToolVersion.set_status v s now), d') /\
    resolve_tool slug d'
      = (Raise (NotFound "No active version for this tool"), d').
Proof.
  intros Hok Ht Hv Honly Hs. pose proof Hv as (Hin & Hvt & Hvi).
  pose proof (update_tool_version_status_run d (Tool.id t) version_id
                (StatusUpdate.mk s) now v Hok Hv) as Hrun.
  simpl in Hrun.
  pose proof (update_tool_version_status_db_ok (Tool.id t) version_id
                (StatusUpdate.mk s) now d Hok) as Hok'.
  rewrite Hrun in Hok'. simpl in Hok'.
  eexists. split; [exact Hrun|].
  apply (resolve_tool_no_active _ slug t Hok'); [exact Ht|].
  intros w (Hw & Hwt & Hws). simpl in Hw.
  apply (elem_of_replaced d v s now w Hok Hin) in Hw as [->|[Hw Hne]].
  - simpl in Hws. contradiction.
  - apply Hne, Honly. now repeat split.
Qed.




(** X11: every store the write handlers lead to from the empty store
    satisfies the constraints of [models.py]: ids and slugs are not repeated
    and every version refers to a stored tool. *)
Theorem reachable_store_constraints (d : Database) :
  reachable d ->
  NoDup (Tool.id <$> tools d) /\
  NoDup (Tool.slug <$> tools d) /\
  NoDup (ToolVersion.id <$> tool_versions d) /\
  forall v, v ∈ tool_versions d ->
            exists t, t ∈ tools d /\ Tool.id t = ToolVersion.tool_id v.
Proof.
  intros Hreach. destruct (reachable_db_ok d Hreach) as [Hpk Hu Hvpk Hfk].
  repeat split; auto.
  intros v Hv. apply Hfk in Hv. apply list_elem_of_fmap in Hv as [t [Hid Ht]].
  exists t. split; [exact Ht|now symmetry].
Qed.

End Lifecycle.

(* ===================================================================== *)
(** * The shape of a gateway run                                          *)
(* ===================================================================== *)

Section GatewayShape.
Import py httpx gateway spec.
Context {env : Environment}.

Ltac stop_early H :=
  injection H as <- <-; split; [reflexivity|]; left;
  (split; [reflexivity|]); (split; [reflexivity|]); eexists; reflexivity.

Lemma call_tool_shape (req : ToolCallRequest) (w w' : World) (out : Outcome JSON) :
  call_tool req w = (out, w') ->
  exists a1 n1,
    exchange (resolve_request req) (net w) = (a1, n1) /\
    ((sent w' = sent w ++ [(resolve_request req, a1)] /\ net w' = n1 /\
      exists e, out = Raise e) \/
     (exists r resolved target q a2 n2,
        a1 = Responded r /\
        status_code r = 200 /\
        json_loads (text r) = Decoded (JDict resolved) /\
        (q = mkRequest "GET" target (Some (input req)) None \/
         q = mkRequest "POST" target None (Some (input req))) /\
        exchange q n1 = (a2, n2) /\
        sent w' = sent w ++ [(resolve_request req, a1); (q, a2)] /\
        net w' = n2 /\
        out = match a2 with
              | Responded resp =>
                  match result_of resp with
                  | Some result =>
                      Return (JDict [("tool", default JNull (assoc "tool" resolved));
                                     ("version",
                                      py_or (default JNull (assoc "version" resolved))
                                            empty_dict);
                                     ("tool_status_code", JInt (status_code resp));
                                     ("result", result)])
                  | None => Raise RecursionError
                  end
              | TransportFailure cause =>
                  Raise (HTTPException 502
                           ("Error calling tool endpoint: " +:+ cause))
              | OtherFailure cause => Raise (ClientError cause)
              end)).
Proof.
  intros Hrun. unfold call_tool, bind, get in Hrun. rewrite send_run in Hrun.
  fold (resolve_request req) in Hrun.
  destruct (exchange (resolve_request req) (net w)) as [a1 n1]. simpl in Hrun.
  exists a1, n1.
  destruct a1 as [r|c|c]; simpl in Hrun; try stop_early Hrun.
  destruct (status_code r =? 200) eqn:H200; simpl in Hrun; try stop_early Hrun.
  apply Z.eqb_eq in H200.
  unfold Response_json at 1 in Hrun.
  destruct (json_loads (text r)) as [resolved| |] eqn:Hjson; simpl in Hrun;
    try stop_early Hrun.
  destruct resolved as [| | | | | |fields]; try (simpl in Hrun; stop_early Hrun).
  rewrite dict_get_JDict in Hrun.
  remember (py_or (default JNull (assoc "version" fields)) empty_dict) as version
    eqn:Hversion.
  destruct version as [| | | | | |vfields]; try (simpl in Hrun; stop_early Hrun).
  rewrite dict_get_JDict in Hrun. cbv beta iota in Hrun.
  set (endpoint_url := default JNull (assoc "endpoint_url" vfields)) in Hrun.
  clearbody endpoint_url.
  rewrite dict_get_JDict in Hrun. cbv beta iota in Hrun.
  set (method := py_or _ (JStr "POST")) in Hrun. clearbody method.
  destruct method as [| | | |m| |]; try (simpl in Hrun; stop_early Hrun).
  unfold str_upper, ret in Hrun. cbv beta iota in Hrun.
  rewrite dict_get_JDict in Hrun. cbv beta iota in Hrun.
  set (protocol := default (JStr "http") _) in Hrun. clearbody protocol.
  destruct (truthy endpoint_url); try (simpl in Hrun; stop_early Hrun).
  unfold negb, ret in Hrun. cbv beta iota in Hrun.
  destruct endpoint_url as [| | | |u| |]; try (simpl in Hrun; stop_early Hrun).
  unfold target_url in Hrun.
  set (prefixed := format protocol +:+ "://" +:+ u) in Hrun.
  assert (Htarget : exists t,
            (if negb (startswith u "http") then ret prefixed else ret u)
              (mkWorld n1 (sent w ++ [(resolve_request req, Responded r)]))
            = (Return t, mkWorld n1 (sent w ++ [(resolve_request req, Responded r)]))).
  { destruct (negb _); eexists; reflexivity. }
  destruct Htarget as [t Ht]. rewrite Ht in Hrun. cbv beta iota in Hrun. clear Ht.
  unfold try_except, post in Hrun.
  destruct (String.eqb (upper m) "GET");
    [|destruct (String.eqb (upper m) "POST");
      [|simpl in Hrun; stop_early Hrun]].
  all: rewrite send_run in Hrun; cbn [net sent] in Hrun;
    match type of Hrun with
    | context [exchange ?q ?n] =>
        destruct (exchange q n) as [a2 n2] eqn:Hex2; cbn [fst snd] in Hrun;
        split; [reflexivity|]; right; exists r, fields, t, q, a2, n2
    end;
    (split; [reflexivity|]); (split; [exact H200|]); (split; [exact Hjson|]);
    (split; [first [left; reflexivity | right; reflexivity]|]);
    (split; [exact Hex2|]);
    destruct a2 as [resp|cause|cause]; cbv beta iota in Hrun;
    [unfold Response_json in Hrun; unfold result_of;
     destruct (json_loads (text resp)); unfold ret, raise in Hrun;
     cbv beta iota in Hrun|..];
    try (rewrite dict_get_JDict in Hrun; cbv beta iota in Hrun);
    unfold ret, raise in Hrun; injection Hrun as <- <-;
    cbn [net sent]; rewrite <- app_assoc, <- ?Hversion; auto.
Qed.


(** X12: a run of [call_tool] makes the resolve request first and at most
    one more exchange.  That second exchange is made only after the registry
    answered 200, and it is a GET with the caller's input as parameters and
    no body, or a POST with the caller's input as body and no parameters. *)
Theorem call_tool_exchanges (req : ToolCallRequest) (w w' : World)
    (out : Outcome JSON) :
  call_tool req w = (out, w') ->
  exists a1 rest,
    sent w' = sent w ++ (resolve_request req, a1) :: rest /\
    (rest = [] \/
     exists r target a2,
       a1 = Responded r /\ status_code r = 200 /\
       (rest = [(mkRequest "GET" target (Some (input req)) None, a2)] \/
        rest = [(mkRequest "POST" target None (Some (input req)), a2)])).
Proof.
  intros Hrun.
  destruct (call_tool_shape req w w' out Hrun)
    as (a1 & n1 & _ & [(Hlog & _)|(r & resolved & target & q & a2 & n2 &
                          -> & H200 & _ & Hq & _ & Hlog & _)]).
  - exists a1, []. split; [exact Hlog|now left].
  - exists (Responded r), [(q, a2)]. split; [exact Hlog|right].
    exists r, target, a2. split; [reflexivity|]. split; [exact H200|].
    destruct Hq as [-> | ->]; auto.
Qed.

(** X13: [call_tool] returns only when the registry answered 200 with an
    object and the dispatch was answered by a response; the [tool] and
    [version] members of the reply are then the members of the registry's
    object ([None] for a missing tool, the empty object for a missing or
    empty version), passed on as they are, and its [result] is the decoded
    body of the response, or the text of a body that is not JSON under
    [raw]. *)
Theorem call_tool_reply_passes_through (req : ToolCallRequest) (w w' : World)
    (reply : JSON) :
  call_tool req w = (Return reply, w') ->
  exists r resolved q resp result,
    sent w' = sent w ++ [(resolve_request req, Responded r); (q, Responded resp)] /\
    status_code r = 200 /\
    json_loads (text r) = Decoded (JDict resolved) /\
    result_of resp = Some result /\
    reply = JDict [("tool", default JNull (assoc "tool" resolved));
                   ("version",
                    py_or (default JNull (assoc "version" resolved)) empty_dict);
                   ("tool_status_code", JInt (status_code resp));
                   ("result", result)].
Proof.
  intros Hrun.
  destruct (call_tool_shape req w w' (Return reply) Hrun)
    as (a1 & n1 & _ & [(_ & _ & e & He)|(r & resolved & target & q & a2 & n2 &
                          -> & H200 & Hjson & _ & _ & Hlog & _ & Hout)]);
    [discriminate|].
  destruct a2 as [resp|cause|cause]; try discriminate.
  destruct (result_of resp) as [result|] eqn:Hresult; try discriminate.
  injection Hout as ->. exists r, resolved, q, resp, result. auto.
Qed.

(** X14: a failure of the resolve step ends the run after that one
    exchange.  A registry answer other than 200 is passed on with its status
    code and body; a transport failure towards the registry, unlike one
    towards the tool, is not turned into a 502 but leaves the handler as the
    client raised it; a 200 whose body does not decode raises the decoding
    error, and one whose body is nested too deep for the decoder raises
    [RecursionError]. *)
Theorem call_tool_resolve_failures (req : ToolCallRequest) (w : World) :
  (forall r n1,
     exchange (resolve_request req) (net w) = (Responded r, n1) ->
     status_code r <> 200 ->
     call_tool req w
     = (Raise (HTTPException (status_code r) ("Failed to resolve tool: " +:+ text r)),
        mkWorld n1 (sent w ++ [(resolve_request req, Responded r)]))) /\
  (forall cause n1,
     exchange (resolve_request req) (net w) = (TransportFailure cause, n1) ->
     call_tool req w
     = (Raise (RequestError cause),
        mkWorld n1 (sent w ++ [(resolve_request req, TransportFailure cause)]))) /\
  (forall r n1,
     exchange (resolve_request req) (net w) = (Responded r, n1) ->
     status_code r = 200 ->
     json_loads (text r) = NotJSON ->
     call_tool req w
     = (Raise JSONDecodeError,
        mkWorld n1 (sent w ++ [(resolve_request req, Responded r)]))) /\
  (forall r n1,
     exchange (resolve_request req) (net w) = (Responded r, n1) ->
     status_code r = 200 ->
     json_loads (text r) = TooDeep ->
     call_tool req w
     = (Raise RecursionError,
        mkWorld n1 (sent w ++ [(resolve_request req, Responded r)]))).
Proof.
  split; [|split; [|split]].
  - intros r n1 Hex Hne. unfold call_tool, bind, get. rewrite send_run.
    fold (resolve_request req). rewrite Hex. simpl.
    apply Z.eqb_neq in Hne. now rewrite Hne.
  - intros cause n1 Hex. unfold call_tool, bind, get. rewrite send_run.
    fold (resolve_request req). now rewrite Hex.
  - intros r n1 Hex H200 Hjson. unfold call_tool, bind, get. rewrite send_run.
    fold (resolve_request req). rewrite Hex. simpl. rewrite H200. simpl.
    unfold Response_json at 1. now rewrite Hjson.
  - intros r n1 Hex H200 Hjson. unfold call_tool, bind, get. rewrite send_run.
    fold (resolve_request req). rewrite Hex. simpl. rewrite H200. simpl.
    unfold Response_json at 1. now rewrite Hjson.
Qed.

End GatewayShape.

(* ===================================================================== *)
(** * The gateway before the dispatch                                     *)
(* ===================================================================== *)

Section GatewayConfiguration.
Import py httpx gateway spec.
Context {env : Environment}.

Lemma call_tool_url_not_set (req : ToolCallRequest) (w : World) (r : Response)
    (resolved version : list (string * JSON)) :
  fst (exchange (resolve_request req) (net w)) = Responded r ->
  status_code r = 200 ->
  json_loads (text r) = Decoded (JDict resolved) ->
  py_or (default JNull (assoc "version" resolved)) empty_dict = JDict version ->
  truthy (default JNull (assoc "endpoint_url" version)) = false ->
  (exists s, py_or (default JNull (assoc "endpoint_method" version)) (JStr "POST")
             = JStr s) ->
  call_tool req w
  = (Raise (BadConfig "Tool endpoint_url is not set"),
     mkWorld (snd (exchange (resolve_request req) (net w)))
             (sent w ++ [(resolve_request req, Responded r)])).
Proof.
  intros Hex H200 Hjson Hv Hurl [s Hs].
  unfold call_tool, bind, get. rewrite send_run. fold (resolve_request req).
  rewrite Hex. rewrite H200. cbn [Z.eqb Pos.eqb negb]. unfold ret at 1. cbv beta iota.
  unfold Response_json at 1. rewrite Hjson. unfold ret at 1. cbv beta iota.
  rewrite dict_get_JDict. cbv beta iota. rewrite Hv.
  rewrite dict_get_JDict. cbv beta iota.
  rewrite dict_get_JDict. cbv beta iota. rewrite Hs.
  unfold str_upper, ret at 1. cbv beta iota.
  rewrite dict_get_JDict. cbv beta iota.
  rewrite Hurl. reflexivity.
Qed.

(** X15: when the resolved version has no [endpoint_url] (the member is
    missing, null or the empty string), or the registry's object has no
    version at all, [call_tool] fails with the configuration error "Tool
    endpoint_url is not set" right after the exchange with the registry,
    whatever the method of the version is, supported or not. *)
Theorem call_tool_endpoint_url_not_set (req : ToolCallRequest) (w : World)
    (r : Response) (resolved : list (string * JSON)) :
  fst (exchange (resolve_request req) (net w)) = Responded r ->
  status_code r = 200 ->
  json_loads (text r) = Decoded (JDict resolved) ->
  let failed :=
    (Raise (BadConfig "Tool endpoint_url is not set"),
     mkWorld (snd (exchange (resolve_request req) (net w)))
             (sent w ++ [(resolve_request req, Responded r)])) in
  ((assoc "version" resolved = None \/ assoc "version" resolved = Some JNull) ->
   call_tool req w = failed) /\
  (forall version m,
     assoc "version" resolved = Some (JDict version) ->
     (assoc "endpoint_url" version = None \/
      assoc "endpoint_url" version = Some JNull \/
      assoc "endpoint_url" version = Some (JStr "")) ->
     effective_method version = Some m ->
     call_tool req w = failed).
Proof.
  intros Hex H200 Hjson failed. split.
  - intros Hv. apply (call_tool_url_not_set req w r resolved []); auto.
    + destruct Hv as [-> | ->]; reflexivity.
    + now exists "POST".
  - intros version m Hv Hurl Hm.
    apply (call_tool_url_not_set req w r resolved version); auto.
    + rewrite Hv. simpl. destruct version; reflexivity.
    + destruct Hurl as [-> | [-> | ->]]; reflexivity.
    + destruct (py_or_method version m Hm) as (s & Hs & _). now exists s.
Qed.

(** X16: the protocol put in front of a URL that does not start with
    [http] is ["http"] when the version has no [endpoint_protocol] member.
    A member that is present but null is not defaulted: its [str()] is put
    in front. *)
Theorem call_tool_protocol_default (w : World) (req : ToolCallRequest)
    (r : Response) (version : list (string * JSON)) (url m : string) :
  resolved_version w req r version ->
  assoc "endpoint_url" version = Some (JStr url) ->
  url <> "" ->
  startswith url "http" = false ->
  effective_method version = Some m ->
  m = "GET" \/ m = "POST" ->
  let '(out, w') := call_tool req w in
  exists q a,
    sent w' = sent w ++ [(resolve_request req, Responded r); (q, a)] /\
    (assoc "endpoint_protocol" version = None ->
     httpx.url q = "http://" +:+ url) /\
    (assoc "endpoint_protocol" version = Some JNull ->
     httpx.url q = py_repr JNull +:+ "://" +:+ url).
Proof.
  intros Hres Hurl Hne Hstart Hm Hmethod.
  destruct (call_tool_dispatch w req r version url m Hres Hurl Hne Hm)
    as (out & w' & -> & Hshape).
  rewrite Hstart in Hshape.
  destruct Hmethod as [-> | ->]; simpl in Hshape; destruct Hshape as [a Ha];
    eexists _, a; rewrite Ha, <- app_assoc; (split; [reflexivity|]);
    split; intros ->; reflexivity.
Qed.

End GatewayConfiguration.

(* ===================================================================== *)
(** * The listing of tools                                                *)
(* ===================================================================== *)

Section ToolListing.
Import py models schemas db registry spec listing_spec tool_listing.
Context {engine : QueryEngine} {like_operator : LikeOperator}.

(** X17: [list_tools] never fails and writes nothing; its rows are stored
    tools, newest first.  Without a search string, or with the empty one,
    they are all the stored tools; with a search string [s] they are the
    stored tools whose slug or display name the engine matches against
    the pattern [%s%]. *)
Theorem list_tools_listing (d : Database) (search : option string) :
  exists rows,
    list_tools search d = (Return rows, d) /\
    newest_first Tool.created_at rows /\
    ((search = None \/ search = Some "") -> rows ≡ₚ tools d) /\
    (forall s, search = Some s -> s <> "" ->
       forall t, t ∈ rows <->
                 t ∈ tools d /\
                 (ilike (Tool.slug t) ("%" +:+ s +:+ "%") = true \/
                  ilike (Tool.display_name t) ("%" +:+ s +:+ "%") = true)).
Proof.
  eexists. split; [reflexivity|]. split; [apply order_by_desc_newest_first|].
  split.
  - intros [-> | ->]; simpl; apply order_by_desc_perm.
  - intros s -> Hs t. apply String.eqb_neq in Hs. rewrite Hs. simpl.
    rewrite (order_by_desc_perm _ Tool.created_at).
    rewrite list_elem_of_filter, orb_true_iff. tauto.
Qed.

End ToolListing.

(* ===================================================================== *)
(** * The variability engine                                              *)
(* ===================================================================== *)

Section Variability.
Import py httpx variability.
Context {env : Environment}.

Lemma assoc_dict_set_eq (d : list (string * JSON)) (key : string) (value : JSON) :
  assoc key (dict_set d key value) = Some value.
Proof.
  induction d as [|[k v] d IH]; simpl.
  - now rewrite String.eqb_refl.
  - destruct (String.eqb k key) eqn:E; simpl; rewrite E; auto.
Qed.

Lemma assoc_dict_set_ne (d : list (string * JSON)) (key other : string)
    (value : JSON) :
  other <> key -> assoc other (dict_set d key value) = assoc other d.
Proof.
  intros Hne. induction d as [|[k v] d IH]; simpl.
  - apply String.eqb_neq in Hne. rewrite String.eqb_sym in Hne. now rewrite Hne.
  - destruct (String.eqb k key) eqn:E; simpl.
    + apply String.eqb_eq in E. subst k.
      assert (Hk : String.eqb key other = false)
        by (apply String.eqb_neq; congruence).
      now rewrite Hk.
    + destruct (String.eqb k other); auto.
Qed.

(** The keys after [{**d, key: value}]: those of [d], and [key] at the end
    when [d] does not have it. *)
Lemma dict_set_keys (d : list (string * JSON)) (key : string) (value : JSON) :
  fst <$> dict_set d key value
  = if bool_decide (key ∈ fst <$> d) then fst <$> d else (fst <$> d) ++ [key].
Proof.
  induction d as [|[k v] d IH]; [reflexivity|].
  cbn [dict_set]. destruct (String.eqb k key) eqn:E.
  - apply String.eqb_eq in E. subst k. rewrite !fmap_cons. cbn [fst].
    rewrite bool_decide_eq_true_2; [reflexivity|apply list_elem_of_here].
  - rewrite !fmap_cons, IH. cbn [fst]. apply String.eqb_neq in E.
    destruct (decide (key ∈ fst <$> d)) as [Hin|Hnin].
    + rewrite (bool_decide_eq_true_2 _ Hin).
      rewrite bool_decide_eq_true_2; [reflexivity|now apply list_elem_of_further].
    + rewrite (bool_decide_eq_false_2 _ Hnin).
      rewrite bool_decide_eq_false_2; [reflexivity|].
      intros Hin. apply elem_of_cons in Hin as [Heq|Hin]; [|contradiction].
      congruence.
Qed.

(** X18: the engine only reads.  A run of [apply_mutation] sends nothing
    when the mutation names no version (the id is missing or empty), and
    otherwise exactly one request, a GET of that version at the registry,
    with no parameters and no body.  A registry answer other than 200 is
    not an error: the handler responds without a current version and
    without a preview. *)
Theorem apply_mutation_reads_only (m : Mutation) (w : World) :
  let '(result, w') := apply_mutation m w in
  ((toolVersionId m = None \/ toolVersionId m = Some "") ->
   w' = w /\
   result = Responds (mkApplyMutationResponse m (note_for m) None None)) /\
  (forall version_id,
     toolVersionId m = Some version_id -> version_id <> "" ->
     exists a,
       sent w' = sent w ++ [(mkRequest "GET" (version_url m version_id) None None, a)] /\
       forall r, a = Responded r -> status_code r <> 200 ->
                 result = Responds (mkApplyMutationResponse m (note_for m) None None)).
Proof.
  unfold apply_mutation, fetch_current_version.
  destruct (toolVersionId m) as [version_id|] eqn:Hid.
  2:{ simpl. split; [auto|]. intros version_id [=]. }
  destruct (String.eqb version_id "") eqn:Hempty; simpl.
  { apply String.eqb_eq in Hempty. subst. split; [auto|].
    intros version_id [= <-] Hne. contradiction. }
  apply String.eqb_neq in Hempty.
  unfold bind. rewrite send_run.
  destruct (exchange _ (net w)) as [a n1]. cbn [fst snd].
  set (q := mkRequest "GET" (version_url m version_id) None None).
  assert (Hno : ~ (Some version_id = None \/ Some version_id = Some ""))
    by (intros [H|H]; congruence).
  destruct a as [r|cause|cause]; cbv beta iota.
  - destruct (status_code r =? 200) eqn:H200.
    + unfold Response_json. destruct (json_loads (text r)) as [[| | | | | |]| |];
        simpl; (split; [intros H; contradiction|]);
        intros ? [= <-] _; eexists; (split; [reflexivity|]);
        intros r' [= <-] Hne; apply Z.eqb_eq in H200; contradiction.
    + simpl. split; [intros H; contradiction|].
      intros ? [= <-] _. eexists. split; [reflexivity|]. reflexivity.
  - split; [intros H; contradiction|].
    intros ? [= <-] _. eexists. split; [reflexivity|]. discriminate.
  - split; [intros H; contradiction|].
    intros ? [= <-] _. eexists. split; [reflexivity|]. discriminate.
Qed.

(** X19: whenever [apply_mutation] responds, the response echoes the
    mutation, and it carries a preview exactly when it carries a current
    version.  The preview is that version with the member
    [mutationPayload] set to the payload of the mutation: every other member
    reads as before, and no member is dropped, moved or added besides. *)
Theorem apply_mutation_preview (m : Mutation) (w w' : World)
    (response : ApplyMutationResponse) :
  apply_mutation m w = (Responds response, w') ->
  mutation response = m /\
  note response = note_for m /\
  match currentVersion response with
  | None => newVersionPreview response = None
  | Some current =>
      exists preview,
        newVersionPreview response = Some preview /\
        assoc "mutationPayload" preview = Some (JDict (payload m)) /\
        (forall key, key <> "mutationPayload" -> assoc key preview = assoc key current) /\
        fst <$> preview
        = if bool_decide ("mutationPayload" ∈ fst <$> current)
          then fst <$> current
          else (fst <$> current) ++ ["mutationPayload"]
  end.
Proof.
  unfold apply_mutation.
  destruct (fetch_current_version m w) as [[current|e] w1]; [|discriminate].
  destruct current as [| | | | | |fields]; try discriminate;
    intros [= <- <-]; simpl; repeat split.
  eexists. split; [reflexivity|].
  split; [apply assoc_dict_set_eq|].
  split; [intros key Hne; now apply assoc_dict_set_ne|apply dict_set_keys].
Qed.

End Variability.

(* ===================================================================== *)
(** * More runs of the registry on the sample stores                      *)
(* ===================================================================== *)

Section MoreRegistryRuns.
Import py models schemas db registry spec listing_spec samples more_samples engines.

Ltac by_computation := apply (bool_decide_unpack _); vm_compute; exact I.
Ltac in_rows := first [apply list_elem_of_here | apply list_elem_of_further; in_rows].
Ltac each_row H :=
  repeat (apply elem_of_cons in H as [->|H]); [..|now apply elem_of_nil in H].

Lemma single_active_store_db_ok : db_ok single_active_store.
Proof.
  split; simpl.
  - by_computation.
  - by_computation.
  - by_computation.
  - apply Forall_forall. by_computation.
Defined.

Lemma weather_has_slug : has_slug store "weather-basic" weather.
Proof. split; [in_rows|reflexivity]. Defined.

(** The listing is answered by one engine and [resolve] by another. *)
Lemma resolve_tool_heads_active_listing_witness :
  db_ok store /\
  has_slug store "weather-basic" weather /\
  exists rows,
    @list_tool_versions insertion_sort_engine "t-weather" (Some active) store
      = (Return rows, store) /\
    @resolve_tool merge_sort_engine "weather-basic" store =
    match rows with
    | [] => (Raise (NotFound "No active version for this tool"), store)
    | v :: _ => (Return (Resolved.mk weather v), store)
    end.
Proof.
  split; [exact store_db_ok|]. split; [exact weather_has_slug|].
  apply (resolve_tool_heads_active_listing (engine := merge_sort_engine)
           insertion_sort_engine store "weather-basic" weather
           store_db_ok weather_has_slug).
  intros v w (Hv & _ & Hvs) (Hw & _ & Hws) Heq.
  unfold store in Hv, Hw. simpl in Hv, Hw.
  each_row Hv; try discriminate Hvs; each_row Hw; try discriminate Hws;
    first [reflexivity | discriminate Heq].
Defined.

Lemma get_tool_version_lookup_witness :
  db_ok store /\
  version_under store "t-weather" "v-weather-1"
    (weather_version "v-weather-1" active 3000) /\
  get_tool_version "t-weather" "v-weather-1" store
    = (Return (weather_version "v-weather-1" active 3000), store) /\
  get_tool_version "t-pollen" "v-weather-1" store
    = (Raise (NotFound "Tool version not found"), store).
Proof.
  assert (Hv : version_under store "t-weather" "v-weather-1"
                 (weather_version "v-weather-1" active 3000)).
  { split; [in_rows|split; reflexivity]. }
  split; [exact store_db_ok|]. split; [exact Hv|].
  destruct (get_tool_version_lookup store "t-weather" "v-weather-1" store_db_ok)
    as (Hfound & _).
  destruct (get_tool_version_lookup store "t-pollen" "v-weather-1" store_db_ok)
    as (_ & _ & Hwrong).
  split; [exact (Hfound _ Hv)|].
  apply (Hwrong (weather_version "v-weather-1" active 3000));
    [in_rows|reflexivity|discriminate].
Defined.

Lemma air_quality_is_new :
  forall t, ~ has_slug store (ToolCreate.slug (ToolCreate.mk "air-quality" "Air quality" None)) t.
Proof. intros t [Ht Hs]. unfold store in Ht. simpl in Ht. each_row Ht; discriminate. Defined.

Lemma create_tool_then_read_witness :
  db_ok store /\
  ("t-air" ∉ Tool.id <$> tools store) /\
  exists row d',
    create_tool (ToolCreate.mk "air-quality" "Air quality" None)
                (mkGenerated "t-air" 7000 7000) store = (Return row, d') /\
    get_tool "t-air" d' = (Return (ToolWithVersions.mk row []), d') /\
    resolve_tool "air-quality" d'
      = (Raise (NotFound "No active version for this tool"), d').
Proof.
  assert (Hfresh : "t-air" ∉ Tool.id <$> tools store) by by_computation.
  split; [exact store_db_ok|]. split; [exact Hfresh|].
  destruct (create_tool_then_read store (ToolCreate.mk "air-quality" "Air quality" None)
              (mkGenerated "t-air" 7000 7000) store_db_ok air_quality_is_new Hfresh)
    as (row & d' & Hrun & _ & _ & _ & _ & _ & _ & Hget & Hres).
  exists row, d'. auto.
Defined.

Lemma create_tool_version_then_read_witness :
  db_ok store /\
  ("v-weather-4" ∉ ToolVersion.id <$> tool_versions store) /\
  exists v d',
    create_tool_version "t-weather" (ToolVersionCreate.validate plain_body)
                        generated store = (Return v, d') /\
    ToolVersion.version v = "1.1.0" /\
    get_tool_version "t-weather" "v-weather-4" d' = (Return v, d') /\
    (exists rows, list_tool_versions "t-weather" None d' = (Return rows, d') /\ v ∈ rows) /\
    exists versions,
      get_tool "t-weather" d' = (Return (ToolWithVersions.mk weather versions), d') /\
      v ∈ versions.
Proof.
  assert (Hfresh : uuid4 generated ∉ ToolVersion.id <$> tool_versions store)
    by by_computation.
  split; [exact store_db_ok|]. split; [exact Hfresh|].
  destruct (create_tool_version_then_read store "t-weather"
              (ToolVersionCreate.validate plain_body) generated weather
              store_db_ok (proj1 weather_has_slug) eq_refl Hfresh)
    as (v & d' & Hrun & _ & _ & Hlabel & _ & _ & Hget & Hlist & versions & Htool & Hall).
  exists v, d'. repeat (split; [assumption|]).
  exists versions. split; [exact Htool|].
  rewrite Hall. apply elem_of_app. right. apply list_elem_of_here.
Defined.

Lemma registry_lookups_meet_one_row_witness :
  db_ok store /\
  forall slug, fst (resolve_tool slug store) <> Raise MultipleResultsFound.
Proof.
  split; [exact store_db_ok|].
  exact (proj2 (proj2 (proj2 (proj2 (proj2
           (registry_lookups_meet_one_row store store_db_ok)))))).
Defined.

Lemma activate_then_resolve_witness :
  db_ok store /\
  version_under store (Tool.id weather) "v-weather-3"
    (weather_version "v-weather-3" retired 5000) /\
  exists d',
    update_tool_version_status "t-weather" "v-weather-3" (StatusUpdate.mk active)
                               9000 store
      = (Return (ToolVersion.set_status (weather_version "v-weather-3" retired 5000)
                   active 9000), d') /\
    resolve_tool "weather-basic" d'
      = (Return (Resolved.mk weather
                   (ToolVersion.set_status (weather_version "v-weather-3" retired 5000)
                      active 9000)), d').
Proof.
  assert (Hv : version_under store (Tool.id weather) "v-weather-3"
                 (weather_version "v-weather-3" retired 5000)).
  { split; [in_rows|split; reflexivity]. }
  split; [exact store_db_ok|]. split; [exact Hv|].
  destruct (activate_then_resolve store "weather-basic" "v-weather-3" weather _ 9000
              store_db_ok weather_has_slug Hv)
    as (d' & w & Hrun & Hres & _ & _ & Hnewest).
  exists d'. split; [exact Hrun|].
  rewrite Hres, Hnewest; [reflexivity|].
  intros u (Hu & _ & Hs) Hne. unfold store in Hu. simpl in Hu.
  each_row Hu; simpl; try lia; discriminate.
Defined.

Lemma deactivate_only_active_then_resolve_witness :
  db_ok single_active_store /\
  exists d',
    update_tool_version_status "t-weather" "v-weather-1" (StatusUpdate.mk deprecated)
                               9000 single_active_store
      = (Return (ToolVersion.set_status (weather_version "v-weather-1" active 3000)
                   deprecated 9000), d') /\
    resolve_tool "weather-basic" d'
      = (Raise (NotFound "No active version for this tool"), d').
Proof.
  split; [exact single_active_store_db_ok|].
  apply (deactivate_only_active_then_resolve single_active_store "weather-basic"
           "v-weather-1" weather (weather_version "v-weather-1" active 3000)
           deprecated 9000 single_active_store_db_ok).
  - split; [in_rows|reflexivity].
  - split; [in_rows|split; reflexivity].
  - intros u (Hu & _ & Hs). unfold single_active_store in Hu. simpl in Hu.
    each_row Hu; [discriminate|reflexivity].
  - discriminate.
Defined.



Lemma reachable_store_constraints_witness :
  reachable (apply_write (CreateTool (ToolCreate.mk "air-quality" "Air quality" None)
                                     (mkGenerated "t-air" 7000 7000)) db.empty) /\
  NoDup (Tool.slug <$> tools
           (apply_write (CreateTool (ToolCreate.mk "air-quality" "Air quality" None)
                                    (mkGenerated "t-air" 7000 7000)) db.empty)).
Proof.
  assert (Hreach : reachable
            (apply_write (CreateTool (ToolCreate.mk "air-quality" "Air quality" None)
                                     (mkGenerated "t-air" 7000 7000)) db.empty))
    by (apply reachable_write, reachable_empty).
  split; [exact Hreach|].
  exact (proj1 (proj2 (reachable_store_constraints _ Hreach))).
Defined.

End MoreRegistryRuns.

(* ===================================================================== *)
(** * More runs against a scripted network                                *)
(* ===================================================================== *)

Section MoreScripts.
Import py httpx gateway variability spec samples more_samples.

Lemma call_tool_exchanges_witness :
  exists a1 rest,
    sent (snd (@call_tool scripted paris weather_world))
    = (@resolve_request scripted paris, a1) :: rest /\
    (rest = [] \/
     exists r target a2,
       a1 = Responded r /\ status_code r = 200 /\
       (rest = [(mkRequest "GET" target (Some [("city", JStr "Paris")]) None, a2)] \/
        rest = [(mkRequest "POST" target None (Some [("city", JStr "Paris")]), a2)])).
Proof.
  exact (call_tool_exchanges (env := scripted) paris weather_world
           (snd (@call_tool scripted paris weather_world))
           (fst (@call_tool scripted paris weather_world))
           ltac:(vm_compute; reflexivity)).
Defined.

Lemma call_tool_reply_passes_through_witness :
  exists reply,
    fst (@call_tool scripted paris weather_world) = Return reply /\
    assoc "version" match reply with JDict fields => fields | _ => [] end
    = Some (JDict weather_version_fields).
Proof.
  destruct (call_tool_reply_passes_through (env := scripted) paris weather_world
              _ _ ltac:(vm_compute; reflexivity))
    as (r & resolved & q & resp & result & Hlog & _ & Hjson & _ & Hreply).
  eexists. split; [reflexivity|]. reflexivity.
Defined.

Lemma call_tool_endpoint_url_not_set_witness :
  effective_method (env := scripted_more) unset_version_fields = Some "PUT" /\
  assoc "endpoint_url" unset_version_fields = None /\
  fst (@call_tool scripted_more paris unset_world)
  = Raise (BadConfig "Tool endpoint_url is not set").
Proof.
  split; [reflexivity|]. split; [reflexivity|].
  destruct (call_tool_endpoint_url_not_set (env := scripted_more) paris unset_world
              (mkResponse 200 "resolved: unset")
              [("tool", weather_tool); ("version", JDict unset_version_fields)]
              eq_refl eq_refl eq_refl) as (_ & Hversion).
  rewrite (Hversion unset_version_fields "PUT" eq_refl (or_introl eq_refl) eq_refl).
  reflexivity.
Defined.

Lemma call_tool_protocol_default_witness :
  resolved_version (env := scripted_more) bare_world paris
    (mkResponse 200 "resolved: bare") bare_version_fields /\
  assoc "endpoint_protocol" bare_version_fields = None /\
  exists q a,
    sent (snd (@call_tool scripted_more paris bare_world))
    = [(@resolve_request scripted_more paris,
        Responded (mkResponse 200 "resolved: bare")); (q, a)] /\
    url q = "http://localhost:9005/weather".
Proof.
  assert (Hres : resolved_version (env := scripted_more) bare_world paris
                   (mkResponse 200 "resolved: bare") bare_version_fields).
  { split; [reflexivity|]. split; [reflexivity|]. eexists. split; reflexivity. }
  split; [exact Hres|]. split; [reflexivity|].
  pose proof (call_tool_protocol_default (env := scripted_more) bare_world paris _
                bare_version_fields "localhost:9005/weather" "GET" Hres eq_refl
                ltac:(discriminate) eq_refl eq_refl (or_introl eq_refl)) as H.
  destruct (@call_tool scripted_more paris bare_world) as [out w'].
  destruct H as (q & a & Hlog & Hhttp & _).
  exists q, a. split; [exact Hlog|exact (Hhttp eq_refl)].
Defined.

Lemma apply_mutation_preview_witness :
  exists response w',
    @apply_mutation scripted_more rename_city version_world = (Responds response, w') /\
    currentVersion response = Some stored_version_fields /\
    exists preview,
      newVersionPreview response = Some preview /\
      assoc "mutationPayload" preview
      = Some (JDict [("from", JStr "city"); ("to", JStr "town")]) /\
      assoc "status" preview = Some (JStr "active").
Proof.
  eexists _, _.
  assert (Hrun : @apply_mutation scripted_more rename_city version_world
                 = (Responds _, _)) by (vm_compute; reflexivity).
  split; [exact Hrun|]. split; [reflexivity|].
  destruct (apply_mutation_preview (env := scripted_more) _ _ _ _ Hrun)
    as (_ & _ & Hpreview).
  simpl in Hpreview. destruct Hpreview as (preview & Hp & Hpayload & Hother & _).
  exists preview. split; [exact Hp|]. split; [exact Hpayload|].
  rewrite Hother; [reflexivity|discriminate].
Defined.

End MoreScripts.
